(** * chaostoolkit-pixie: tolerances, credentials and row normalisation

    A shallow embedding of [chaospixie/tolerances.py] and of the private
    helpers of [chaospixie/__init__.py], together with the part of the
    Python runtime these functions rely on (scalars, arithmetic on [int]
    and [float], [sorted], [statistics.median], [statistics.quantiles],
    [datetime.timedelta]).

    Python [float] is IEEE 754 binary64, which is Rocq's primitive [float];
    Python [int] is unbounded, hence [Z].  A record (one row of a Pixie
    table) is a [dict] from column names to scalars: a [gmap string value].
    Python exceptions are an explicit error type. *)

From Stdlib Require Import ZArith Bool Ascii String Sorting.Sorted.
From Stdlib Require Import Floats.PrimFloat Floats.SpecFloat Floats.FloatOps.
From Stdlib Require Import Floats.FloatAxioms.
From stdpp Require Import base option list strings gmap fin_maps.

Set Warnings "-inexact-float".
Local Open Scope string_scope.
Local Open Scope Z_scope.

(** ** Exceptions and results *)

(** The exceptions that the modelled code can raise.  [ActivityFailed] and
    [InvalidExperiment] are the two chaoslib exceptions raised by the
    extension itself; the others come from the Python runtime. *)
Inductive exn : Type :=
  | TypeError
  | ValueError
  | OverflowError
  | ZeroDivisionError
  | IndexError
  | StatisticsError
  | ReError
  | ActivityFailed (msg : string)
  | InvalidExperiment (msg : string).

Inductive result (A : Type) : Type :=
  | Ok (a : A)
  | Raise (e : exn).
Arguments Ok {A} a.
Arguments Raise {A} e.

#[export] Instance result_ret : MRet result := fun A a => Ok a.
#[export] Instance result_bind : MBind result := fun A B f m =>
  match m with
  | Ok a => f a
  | Raise e => Raise e
  end.

(** [try: m except e => h]: the handler replaces exception [e] only. *)
Definition try_except {A} (m : result A) (is_e : exn -> bool) (h : result A)
  : result A :=
  match m with
  | Ok a => Ok a
  | Raise e => if is_e e then h else Raise e
  end.

Definition is_StatisticsError (e : exn) : bool :=
  match e with StatisticsError => true | _ => false end.

(** ** Scalars *)

(** The JSON-safe scalars a record can hold. *)
Inductive value : Type :=
  | VNone
  | VBool (b : bool)
  | VInt (z : Z)
  | VFloat (f : float)
  | VStr (s : string).

(** A record is a Python [dict] with string keys. *)
Abbreviation record := (gmap string value).

(** The numeric reading of a scalar: [bool] is a subclass of [int]. *)
Inductive num : Type :=
  | NInt (z : Z)
  | NFloat (f : float).

Definition as_num (v : value) : option num :=
  match v with
  | VBool b => Some (NInt (if b then 1 else 0))
  | VInt z => Some (NInt z)
  | VFloat f => Some (NFloat f)
  | VNone | VStr _ => None
  end.

(** ** Arithmetic of the numeric tower *)

Module Num.

Definition prec : Z := 53.
Definition emax : Z := 1024.

(** An integer as an exact (unrounded) binary number. *)
Definition Z2SF (z : Z) : spec_float :=
  match z with
  | Z0 => S754_zero false
  | Zpos p => S754_finite false p 0
  | Zneg p => S754_finite true p 0
  end.

(** [float(z)]: round to nearest, ties to even; [OverflowError] when the
    rounded value does not fit a double. *)
Definition float_of_int (z : Z) : result float :=
  match binary_normalize prec emax z 0 false with
  | S754_infinity _ => Raise OverflowError
  | sf => Ok (SF2Prim sf)
  end.

Definition to_float (n : num) : result float :=
  match n with
  | NInt z => float_of_int z
  | NFloat f => Ok f
  end.

(** IEEE 754 comparison of two doubles, read off their decoded form;
    [None] when one of them is a NaN. *)
Definition float_compare (x y : float) : option comparison :=
  SFcompare (Prim2SF x) (Prim2SF y).

Definition is_zero (f : float) : bool :=
  match float_compare f 0%float with Some Eq => true | _ => false end.

(** [x / y] on two floats. *)
Definition float_truediv (x y : float) : result float :=
  if is_zero y then Raise ZeroDivisionError else Ok (PrimFloat.div x y).

(** [a / b] on two ints: the correctly rounded quotient. *)
Definition int_truediv (a b : Z) : result float :=
  if Z.eqb b 0 then Raise ZeroDivisionError
  else match SFdiv prec emax (Z2SF a) (Z2SF b) with
       | S754_infinity _ => Raise OverflowError
       | sf => Ok (SF2Prim sf)
       end.

Definition truediv (a b : num) : result float :=
  match a, b with
  | NInt x, NInt y => int_truediv x y
  | _, _ => x ← to_float a; y ← to_float b; float_truediv x y
  end.

Definition add (a b : num) : result num :=
  match a, b with
  | NInt x, NInt y => Ok (NInt (x + y))
  | _, _ => x ← to_float a; y ← to_float b; Ok (NFloat (PrimFloat.add x y))
  end.

Definition mul (a b : num) : result num :=
  match a, b with
  | NInt x, NInt y => Ok (NInt (x * y))
  | _, _ => x ← to_float a; y ← to_float b; Ok (NFloat (PrimFloat.mul x y))
  end.

(** Exact comparison of an int with a float; [None] when the float is a
    NaN (every ordering test is then false). *)
Definition compare_int_float (z : Z) (f : float) : option comparison :=
  match Prim2SF f with
  | S754_nan => None
  | S754_infinity s => Some (if s then Gt else Lt)
  | S754_zero _ => Some (z ?= 0)
  | S754_finite s m e =>
      let v := if s then Zneg m else Zpos m in
      Some (if 0 <=? e then z ?= v * 2 ^ e else z * 2 ^ (- e) ?= v)
  end.

Definition compare (a b : num) : option comparison :=
  match a, b with
  | NInt x, NInt y => Some (x ?= y)
  | NFloat x, NFloat y => float_compare x y
  | NInt x, NFloat y => compare_int_float x y
  | NFloat x, NInt y => CompOpp <$> compare_int_float y x
  end.

Definition ltb (a b : num) : bool :=
  match compare a b with Some Lt => true | _ => false end.
Definition leb (a b : num) : bool :=
  match compare a b with Some Lt | Some Eq => true | _ => false end.
Definition geb (a b : num) : bool :=
  match compare a b with Some Gt | Some Eq => true | _ => false end.
Definition eqb (a b : num) : bool :=
  match compare a b with Some Eq => true | _ => false end.

End Num.

(** The scalar a number is stored as. *)
Definition of_num (n : num) : value :=
  match n with
  | NInt z => VInt z
  | NFloat f => VFloat f
  end.

(** ** Operators on scalars *)

(** [s * n] on a string: repetition, empty when [n <= 0]. *)
Fixpoint str_repeat (s : string) (n : nat) : string :=
  match n with
  | O => ""
  | S k => String.append s (str_repeat s k)
  end.

(** [a / b] *)
Definition py_truediv (a b : value) : result value :=
  match as_num a, as_num b with
  | Some x, Some y => f ← Num.truediv x y; Ok (VFloat f)
  | _, _ => Raise TypeError
  end.

(** [a + b] *)
Definition py_add (a b : value) : result value :=
  match as_num a, as_num b with
  | Some x, Some y => n ← Num.add x y; Ok (of_num n)
  | _, _ =>
      match a, b with
      | VStr s, VStr t => Ok (VStr (String.append s t))
      | _, _ => Raise TypeError
      end
  end.

(** [a * b] *)
Definition py_mul (a b : value) : result value :=
  match as_num a, as_num b with
  | Some x, Some y => n ← Num.mul x y; Ok (of_num n)
  | Some (NInt k), None =>
      match b with
      | VStr s => Ok (VStr (str_repeat s (Z.to_nat k)))
      | _ => Raise TypeError
      end
  | None, Some (NInt k) =>
      match a with
      | VStr s => Ok (VStr (str_repeat s (Z.to_nat k)))
      | _ => Raise TypeError
      end
  | _, _ => Raise TypeError
  end.

(** Ordering tests.  Numbers compare with numbers and strings with strings
    (by code point); every other pairing is a [TypeError]. *)
Definition py_rich (onum : num -> num -> bool)
    (ostr : string -> string -> bool) (a b : value) : result bool :=
  match as_num a, as_num b with
  | Some x, Some y => Ok (onum x y)
  | _, _ =>
      match a, b with
      | VStr s, VStr t => Ok (ostr s t)
      | _, _ => Raise TypeError
      end
  end.

Definition py_lt : value -> value -> result bool :=
  py_rich Num.ltb String.ltb.
Definition py_le : value -> value -> result bool :=
  py_rich Num.leb String.leb.
Definition py_ge : value -> value -> result bool :=
  py_rich Num.geb (fun s t => String.leb t s).

(** Equality never raises. *)
Definition py_eq (a b : value) : bool :=
  match as_num a, as_num b with
  | Some x, Some y => Num.eqb x y
  | _, _ =>
      match a, b with
      | VStr s, VStr t => String.eqb s t
      | VNone, VNone => true
      | _, _ => false
      end
  end.

(** Truth value of a scalar, as tested by [if x] and [not x]. *)
Definition truthy (v : value) : bool :=
  match v with
  | VNone => false
  | VBool b => b
  | VInt z => negb (Z.eqb z 0)
  | VFloat f => negb (Num.is_zero f)
  | VStr s => negb (String.eqb s "")
  end.

(** ** Lists *)

(** [l[i]]: a negative index counts from the end; out of range raises
    [IndexError]. *)
Definition py_getitem {A} (l : list A) (i : Z) : result A :=
  let n := Z.of_nat (length l) in
  let j := if i <? 0 then i + n else i in
  if (j <? 0) || (n <=? j) then Raise IndexError
  else match l !! Z.to_nat j with
       | Some x => Ok x
       | None => Raise IndexError
       end.

(** ** Sorting *)

Definition is_number (v : value) : bool :=
  match as_num v with Some _ => true | None => false end.

(** A float that is a NaN. *)
Definition is_nan (v : value) : bool :=
  match v with
  | VFloat f => match Prim2SF f with S754_nan => true | _ => false end
  | _ => false
  end.

(** A stable sort that compares with [<] only: an element is placed
    before the first element it is smaller than. *)
Fixpoint insert_sorted (x : value) (l : list value) : result (list value) :=
  match l with
  | [] => Ok [x]
  | y :: l' =>
      lt ← py_lt x y;
      if lt : bool then Ok (x :: y :: l')
      else (r ← insert_sorted x l'; Ok (y :: r))
  end.

Definition insertion_sort (data : list value) : result (list value) :=
  foldl (fun acc x => l ← acc; insert_sorted x l) (Ok []) data.

(** With a NaN among the numbers [<] is not an order, and the list that
    CPython's [sorted] returns depends on the comparisons its algorithm
    happens to make: [[2.0, nan, 1.0]] comes back as it is.  All that is
    kept of it here is that the result is an arrangement of the data. *)
Class Unordered : Type := {
  sort_unordered : list value -> list value;
  sort_unordered_perm : forall data, sort_unordered data ≡ₚ data;
}.

(** [sorted(data)].  Fewer than two elements are not compared at all.
    On data without a NaN every stable sort, CPython's included, returns
    the same list, or raises [TypeError] on meeting two elements that do
    not compare.  On data with a NaN: numbers come back in the arrangement
    of [sort_unordered]; with an element that is not a number there is a
    comparison that raises [TypeError]. *)
Definition sorted {U : Unordered} (data : list value)
  : result (list value) :=
  match data with
  | [] | [_] => Ok data
  | _ =>
      if existsb is_nan data then
        if forallb is_number data then Ok (sort_unordered data)
        else Raise TypeError
      else insertion_sort data
  end.

(** The arrangement that leaves the data as it is. *)
Module Unsorted.

#[export] Instance keep : Unordered := {|
  sort_unordered := fun data => data;
  sort_unordered_perm := fun data => Permutation_refl data;
|}.

End Unsorted.

(** ** The [statistics] module *)

(** [statistics.median]:
<<
    data = sorted(data)
    n = len(data)
    if n == 0:
        raise StatisticsError("no median for empty data")
    if n % 2 == 1:
        return data[n // 2]
    else:
        i = n // 2
        return (data[i - 1] + data[i]) / 2
>> *)
Definition median {U : Unordered} (data : list value) : result value :=
  data ← sorted data;
  let n := Z.of_nat (length data) in
  if n =? 0 then Raise StatisticsError
  else if n mod 2 =? 1 then py_getitem data (n / 2)
  else
    let i := n / 2 in
    a ← py_getitem data (i - 1);
    b ← py_getitem data i;
    s ← py_add a b;
    py_truediv s (VInt 2).

(** One cut point of [statistics.quantiles], default method (exclusive):
<<
    j = i * m // n
    j = 1 if j < 1 else ld-1 if j > ld-1 else j
    delta = i*m - j*n
    interpolated = (data[j - 1] * (n - delta) + data[j] * delta) / n
>> *)
Definition cut_point (data : list value) (ld m n i : Z) : result value :=
  let j := i * m / n in
  let j := if j <? 1 then 1 else if ld - 1 <? j then ld - 1 else j in
  let delta := i * m - j * n in
  a ← py_getitem data (j - 1);
  x ← py_mul a (VInt (n - delta));
  b ← py_getitem data j;
  y ← py_mul b (VInt delta);
  s ← py_add x y;
  py_truediv s (VInt n).

(** [statistics.quantiles(data, n=n)], as in Python 3.8 to 3.12: fewer than
    two data points raise [StatisticsError]. *)
Definition quantiles {U : Unordered} (data : list value) (n : Z)
  : result (list value) :=
  if n <? 1 then Raise StatisticsError
  else
    data ← sorted data;
    let ld := Z.of_nat (length data) in
    if ld <? 2 then Raise StatisticsError
    else
      let m := ld + 1 in
      mapM (cut_point data ld m n) (seqZ 1 (n - 1)).

(** ** Regular expressions *)

(** The [re] module, as far as [group_values] uses it: [re.compile], which
    raises on a malformed pattern, and [Pattern.match] on a string, which
    anchors at the start of the string. *)
Class Re : Type := {
  pattern : Type;
  re_compile : string -> result pattern;
  re_match : pattern -> string -> bool;
}.

(** ** tolerances.py *)

Section Tolerances.
Context `{Re} {U : Unordered}.

(** The filter test of the loop of [group_values]:
<<
  key and (key in r) and rgx and (rgx.match(r[key]) is None)
>>
    [rgx.match] on anything but a string is a [TypeError]. *)
Definition target_excludes (key : option string) (rgx : option pattern)
    (r : record) : result bool :=
  match key with
  | None => Ok false
  | Some k =>
      if negb (truthy (VStr k)) then Ok false
      else match r !! k with
           | None => Ok false
           | Some v =>
               match rgx with
               | None => Ok false
               | Some p =>
                   match v with
                   | VStr s => Ok (negb (re_match p s))
                   | _ => Raise TypeError
                   end
               end
           end
  end.

(** The unit conversion of [group_values]. *)
Definition convert (convert_from_nanoseconds : option string) (v : value)
  : result value :=
  match convert_from_nanoseconds with
  | Some "seconds" => py_truediv v (VFloat 1.0e9)
  | Some "milliseconds" => py_truediv v (VFloat 1.0e6)
  | Some "microseconds" => py_truediv v (VFloat 1.0e3)
  | _ => Ok v
  end.

(** The loop of [group_values]; [values] is the list built so far. *)
Fixpoint group_loop (key : option string) (rgx : option pattern)
    (column : string) (convert_from_nanoseconds : option string)
    (results : list record) (values : list value) : result (list value) :=
  match results with
  | [] => Ok values
  | r :: rest =>
      skip ← target_excludes key rgx r;
      if skip : bool then
        group_loop key rgx column convert_from_nanoseconds rest values
      else
        match r !! column with
        | None =>
            group_loop key rgx column convert_from_nanoseconds rest values
        | Some v =>
            v ← convert convert_from_nanoseconds v;
            group_loop key rgx column convert_from_nanoseconds rest
              (values ++ [v])
        end
  end.

Definition group_values (results : list record) (column : string)
    (target : option (string * string))
    (convert_from_nanoseconds : option string) : result (list value) :=
  '(key, rgx) ←
    match target with
    | Some (k, p) => c ← re_compile p; Ok (Some k, Some c)
    | None => Ok (None, None)
    end;
  group_loop key rgx column convert_from_nanoseconds results [].

Definition compute_median (values : list value) : result value :=
  try_except (median values) is_StatisticsError
    (Raise (ActivityFailed "failed to compute median")).

Definition compute_percentile (values : list value) (percentile : Z)
  : result value :=
  try_except (q ← quantiles values 100; py_getitem q (percentile - 1))
    is_StatisticsError
    (Raise (ActivityFailed "failed to compute percentiles")).

Definition median_should_be_below (column : string) (treshold : value)
    (convert_from_nanoseconds : option string)
    (target : option (string * string)) (value : list record)
  : result bool :=
  values ← group_values value column target convert_from_nanoseconds;
  m ← compute_median values;
  py_le m treshold.

Definition median_should_be_above (column : string) (treshold : value)
    (target : option (string * string))
    (convert_from_nanoseconds : option string) (value : list record)
  : result bool :=
  values ← group_values value column target convert_from_nanoseconds;
  m ← compute_median values;
  py_ge m treshold.

Definition percentile_should_be_below (column : string) (treshold : value)
    (percentile : Z) (target : option (string * string))
    (convert_from_nanoseconds : option string) (value : list record)
  : result bool :=
  values ← group_values value column target convert_from_nanoseconds;
  q ← compute_percentile values percentile;
  py_le q treshold.

Definition percentile_should_be_above (column : string) (treshold : value)
    (percentile : Z) (target : option (string * string))
    (convert_from_nanoseconds : option string) (value : list record)
  : result bool :=
  values ← group_values value column target convert_from_nanoseconds;
  q ← compute_percentile values percentile;
  py_ge q treshold.

End Tolerances.

(** ** A regular-expression engine for a fragment of [re]

    Everything proved about [tolerances.py] holds for every engine.  To
    evaluate examples, here is an engine for the patterns made of literal
    characters, [.] (any character but a newline) and a postfix [*]; a
    [*] with nothing to repeat is rejected as [re.compile] rejects it.
    Patterns using any other metacharacter are outside the fragment and
    are rejected too (the examples use none). *)
Module SimpleRe.

Inductive atom : Type :=
  | AChar (c : ascii)
  | AAny.

(** An atom and whether it is starred. *)
Definition item : Type := (atom * bool)%type.

Definition is_meta (c : ascii) : bool :=
  existsb (Ascii.eqb c)
    ["\"; "^"; "$"; "+"; "?"; "{"; "}"; "["; "]"; "("; ")"; "|"]%char.

Fixpoint parse (s : string) : result (list item) :=
  match s with
  | EmptyString => Ok []
  | String c rest =>
      if Ascii.eqb c "*" then Raise ReError
      else if is_meta c then Raise ReError
      else
        let a := if Ascii.eqb c "." then AAny else AChar c in
        match rest with
        | String "*"%char rest' => r ← parse rest'; Ok ((a, true) :: r)
        | _ => r ← parse rest; Ok ((a, false) :: r)
        end
  end.

Definition atom_matches (a : atom) (c : ascii) : bool :=
  match a with
  | AChar x => Ascii.eqb x c
  | AAny => negb (Ascii.eqb c "010")
  end.

(** Does a prefix of [s] match the items? *)
Fixpoint match_here (items : list item) (s : string) : bool :=
  match items with
  | [] => true
  | (a, false) :: rest =>
      match s with
      | String c s' => atom_matches a c && match_here rest s'
      | EmptyString => false
      end
  | (a, true) :: rest =>
      (fix star (s : string) : bool :=
         match_here rest s
         || match s with
            | String c s' => atom_matches a c && star s'
            | EmptyString => false
            end) s
  end.

#[export] Instance engine : Re := {|
  pattern := list item;
  re_compile := parse;
  re_match := match_here;
|}.

End SimpleRe.

(** ** chaospixie/__init__.py *)

(** *** Credentials *)

Section Auth.

(** [pxapi.client.DEFAULT_PIXIE_URL], a constant of the client library. *)
Variable DEFAULT_PIXIE_URL : string.

(** [os.getenv(key, default)]; the environment holds strings. *)
Definition getenv (environ : gmap string string) (key : string)
    (default : value) : value :=
  match environ !! key with
  | Some s => VStr s
  | None => default
  end.

(** [d.get(key, default)] *)
Definition dict_get (d : record) (key : string) (default : value) : value :=
  match d !! key with
  | Some v => v
  | None => default
  end.

Definition missing_cluster_id : string :=
  "missing the Pixie cluster id. Set it either in the configuration as `pixie_cluster_id` or via the PIXIE_CLUSTER_ID environment variable.".

Definition missing_api_key : string :=
  "missing the Pixie API key. Set it either in the secrets as `px_key` or via the PIXIE_API_KEY environment variable.".

(** [get_auth]; [configuration] and [secrets] may be [None]. *)
Definition get_auth (environ : gmap string string)
    (configuration secrets : option record) : result record :=
  let configuration := default ∅ configuration in
  let secrets := default ∅ secrets in
  let px_cluster_id :=
    getenv environ "PIXIE_CLUSTER_ID"
      (dict_get configuration "pixie_cluster_id" VNone) in
  let px_key :=
    getenv environ "PIXIE_API_KEY" (dict_get secrets "api_key" VNone) in
  if negb (truthy px_cluster_id) then
    Raise (InvalidExperiment missing_cluster_id)
  else if negb (truthy px_key) then
    Raise (InvalidExperiment missing_api_key)
  else
    let px_server_url :=
      getenv environ "PIXIE_SERVER_URL"
        (dict_get configuration "px_server_url" (VStr DEFAULT_PIXIE_URL)) in
    Ok (<["px_cluster_id" := px_cluster_id]>
        (<["px_key" := px_key]>
         (<["px_server_url" := px_server_url]> ∅))).

End Auth.

(** *** Timestamps *)

(** A [datetime] whose [tzinfo] is [timezone.utc]. *)
Record datetime : Type := {
  year : Z;
  month : Z;
  day : Z;
  hour : Z;
  minute : Z;
  second : Z;
  microsecond : Z;
}.

Definition us_per_day : Z := 86400 * 1000000.

(** The nearest integer to a double, ties to the even one.  This is how
    [timedelta] turns a fractional number of microseconds into a whole
    one; a NaN is a [ValueError], an infinity an [OverflowError]. *)
Definition round_half_even (f : float) : result Z :=
  match Prim2SF f with
  | S754_nan => Raise ValueError
  | S754_infinity _ => Raise OverflowError
  | S754_zero _ => Ok 0
  | S754_finite s m e =>
      let v :=
        if 0 <=? e then Zpos m * 2 ^ e
        else
          let d := 2 ^ (- e) in
          let q := Zpos m / d in
          let r := Zpos m mod d in
          if 2 * r <? d then q
          else if d <? 2 * r then q + 1
          else if Z.even q then q else q + 1 in
      Ok (if s then - v else v)
  end.

(** [timedelta(microseconds=x)], as a number of microseconds; a
    [timedelta] holds at most 999999999 days either way. *)
Definition timedelta_microseconds (x : value) : result Z :=
  match x with
  | VFloat f =>
      us ← round_half_even f;
      let days := us / us_per_day in
      if (days <? -999999999) || (999999999 <? days) then Raise OverflowError
      else Ok us
  | VInt z =>
      let days := z / us_per_day in
      if (days <? -999999999) || (999999999 <? days) then Raise OverflowError
      else Ok z
  | VBool b => Ok (if b then 1 else 0)
  | VNone | VStr _ => Raise TypeError
  end.

(** The proleptic Gregorian date that lies [z] days after 1970-01-01. *)
Definition civil_from_days (z : Z) : Z * Z * Z :=
  let z := z + 719468 in
  let era := z / 146097 in
  let doe := z - era * 146097 in
  let yoe := (doe - doe / 1460 + doe / 36524 - doe / 146096) / 365 in
  let doy := doe - (365 * yoe + yoe / 4 - yoe / 100) in
  let mp := (5 * doy + 2) / 153 in
  let d := doy - (153 * mp + 2) / 5 + 1 in
  let m := if mp <? 10 then mp + 3 else mp - 9 in
  let y := yoe + era * 400 + (if m <=? 2 then 1 else 0) in
  (y, m, d).

(** [datetime(1970, 1, 1, tzinfo=timezone.utc) + timedelta(microseconds=us)];
    the year of a [datetime] lies between 1 and 9999. *)
Definition epoch_plus (us : Z) : result datetime :=
  let days := us / us_per_day in
  let rest := us mod us_per_day in
  let '(y, m, d) := civil_from_days days in
  if (y <? 1) || (9999 <? y) then Raise OverflowError
  else Ok {| year := y; month := m; day := d;
             hour := rest / 3600000000;
             minute := rest / 60000000 mod 60;
             second := rest / 1000000 mod 60;
             microsecond := rest mod 1000000 |}.

(** [nanotime_to_datetime]:
<<
    return datetime(1970, 1, 1, tzinfo=timezone.utc) + timedelta(
        microseconds=nano / 1000.0
    )
>> *)
Definition nanotime_to_datetime (nano : value) : result datetime :=
  x ← py_truediv nano (VFloat 1000.0);
  us ← timedelta_microseconds x;
  epoch_plus us.

(** [n] in decimal, on [width] digits. *)
Fixpoint decimal (width : nat) (n : Z) : string :=
  match width with
  | O => ""
  | S w =>
      String.append (decimal w (n / 10))
        (String (ascii_of_nat (48 + Z.to_nat (n mod 10))) "")
  end.

(** [d.isoformat()] for a UTC [datetime]: the microseconds are printed
    only when they are not zero. *)
Definition isoformat (d : datetime) : string :=
  String.concat ""
    [ decimal 4 (year d); "-"; decimal 2 (month d); "-"; decimal 2 (day d);
      "T"; decimal 2 (hour d); ":"; decimal 2 (minute d); ":";
      decimal 2 (second d);
      if microsecond d =? 0 then ""
      else String.append "." (decimal 6 (microsecond d));
      "+00:00" ].

(** What [encode] can be given: a scalar, a [datetime], or a [UUID] (held
    as its canonical text). *)
Inductive pyobj : Type :=
  | PValue (v : value)
  | PDatetime (d : datetime)
  | PUUID (canonical : string).

(** [encode]: dates and UUIDs become text, the rest is passed through. *)
Definition encode (o : pyobj) : value :=
  match o with
  | PDatetime d => VStr (isoformat d)
  | PUUID s => VStr s
  | PValue v => v
  end.

(** [handle_timestamp(r)] updates the row in place and returns nothing:
    the function maps the row before the call to the row after it. *)
Definition handle_timestamp (r : record) : result record :=
  match r !! "time_" with
  | Some t =>
      d ← nanotime_to_datetime t; Ok (<["_dt" := encode (PDatetime d)]> r)
  | None =>
      match r !! "create_time" with
      | Some t =>
          d ← nanotime_to_datetime t;
          Ok (<["_dt" := encode (PDatetime d)]> r)
      | None =>
          match r !! "start_time" with
          | Some t =>
              d ← nanotime_to_datetime t;
              Ok (<["_dt" := encode (PDatetime d)]> r)
          | None => Ok r
          end
      end
  end.

(** *** Rows of a Pixie table *)

(** A [pxapi.data.Row], as far as [serialize_row] looks at it: the values
    [row._data] and the method [row.relation.get_col_name], which may
    raise. *)
Record Row : Type := {
  _data : list pyobj;
  get_col_name : Z -> result string;
}.

(** The loop of [serialize_row]:
<<
    for i, c in enumerate(row._data):
        out[row.relation.get_col_name(i)] = encode(c)
>> *)
Fixpoint serialize_loop (row : Row) (i : Z) (data : list pyobj)
    (out : record) : result record :=
  match data with
  | [] => Ok out
  | c :: rest =>
      name ← get_col_name row i;
      serialize_loop row (i + 1) rest (<[name := encode c]> out)
  end.

Definition serialize_row (row : Row) : result record :=
  serialize_loop row 0 (_data row) ∅.

(** *** Scripts *)

(** A prepared script, as far as [execute_script] uses it:
    [s.results(table_name)] is a stream that yields rows and then ends,
    normally or with an exception. *)
Record Script : Type := {
  results : string -> list Row * option exn;
}.

(** A connection to a cluster: [conn.prepare_script(script)]. *)
Record Conn : Type := {
  prepare_script : string -> result Script;
}.

(** The loop of [execute_script]; [r] is the list built so far. *)
Fixpoint execute_loop (rows : list Row) (stream_end : option exn)
    (r : list record) : result (list record) :=
  match rows with
  | [] =>
      match stream_end with
      | Some e => Raise e
      | None => Ok r
      end
  | e :: rest =>
      e ← serialize_row e;
      e ← handle_timestamp e;
      execute_loop rest stream_end (r ++ [e])
  end.

Definition execute_script (conn : Conn) (script table_name : string)
  : result (list record) :=
  s ← prepare_script conn script;
  let '(rows, stream_end) := results s table_name in
  execute_loop rows stream_end [].

(** [load_script_from_file]; [files] is the file system: a path that
    exists is mapped to what [read_text("utf-8")] gives for it, a text or
    an exception (a directory, bytes that are not UTF-8). *)
Definition load_script_from_file (files : string -> option (result string))
    (script_path : string) : result string :=
  match files script_path with
  | None =>
      Raise (ActivityFailed
               (String.append "'"
                  (String.append script_path " is not a valid path")))
  | Some text => text
  end.

#[export] Instance value_inhabited : Inhabited value := populate VNone.

(** A [pxapi.Client]: [px_client.connect_to_cluster(cluster_id)]. *)
Record PxClient : Type := {
  connect_to_cluster : value -> result Conn;
}.

Section Probes.

Variable DEFAULT_PIXIE_URL : string.

(** The process environment, the file system and the constructor
    [pxapi.Client(token, server_url, use_encryption)]. *)
Variable environ : gmap string string.
Variable files : string -> option (result string).
Variable Client : value -> value -> bool -> result PxClient.

(** [connect]; the dictionary that [get_auth] returns holds the three
    keys that are read here. *)
Definition connect (configuration secrets : option record) : result Conn :=
  auth ← get_auth DEFAULT_PIXIE_URL environ configuration secrets;
  px_client ← Client (auth !!! "px_key") (auth !!! "px_server_url") false;
  connect_to_cluster px_client (auth !!! "px_cluster_id").

(** *** chaospixie/probes.py *)

Definition run_script (script table_name : string)
    (configuration secrets : option record) : result (list record) :=
  c ← connect configuration secrets;
  execute_script c script table_name.

Definition run_script_from_local_file (script_path table_name : string)
    (configuration secrets : option record) : result (list record) :=
  s ← load_script_from_file files script_path;
  run_script s table_name configuration secrets.

End Probes.

(** *** Discovery *)

Section Discovery.

(** What chaoslib describes an activity by. *)
Variable activity : Type.

(** A [Discovery], as far as [discover] uses it: the list at
    ["activities"], and the rest. *)
Record Discovery : Type := {
  activities : list activity;
  description : gmap string value;
}.

(** The two functions of chaoslib that [discover] calls. *)
Variable initialize_discovery_result :
  string -> string -> string -> result Discovery.
Variable discover_probes : string -> result (list activity).

Definition __version__ : string := "0.1.0".

(** [l.extend(x)], where [x] is a list or [None]: [None] is not
    iterable. *)
Definition list_extend {A} (l : list A) (x : option (list A))
  : result (list A) :=
  match x with
  | Some xs => Ok (l ++ xs)%list
  | None => Raise TypeError
  end.

(** [load_exported_activities] fills a list and ends without a [return]:
    the call evaluates to [None]. *)
Definition load_exported_activities : result (option (list activity)) :=
  found ← discover_probes "chaospixie.probes";
  activities ← list_extend [] (Some found);
  Ok None.

(** [discover]: the list at ["activities"] is looked up, then
    [load_exported_activities()] is evaluated, then [extend] is called. *)
Definition discover (discover_system : bool) : result Discovery :=
  discovery ←
    initialize_discovery_result "chaostoolkit-pixie" __version__ "pixie";
  let l := activities discovery in
  exported ← load_exported_activities;
  l ← list_extend l exported;
  Ok {| activities := l; description := description discovery |}.

End Discovery.

(** ** tolerances.py over a store

    The functions above take the rows by value.  In Python the rows are
    objects shared with the caller, and [group_values] builds its result
    by appending to a list object of its own.  This section runs the same
    code over an explicit store, where a location holds a [dict] or a
    [list] and a list holds scalars or references. *)
Module Store.

Abbreviation loc := positive.

Inductive item : Type :=
  | IVal (v : value)
  | IRef (l : loc).

Inductive obj : Type :=
  | ODict (d : record)
  | OList (l : list item).

Abbreviation heap := (gmap loc obj).

(** A computation reads and writes the store and returns or raises; the
    store survives an exception. *)
Definition M (A : Type) : Type := heap -> result A * heap.

Definition ret {A} (a : A) : M A := fun h => (Ok a, h).

Definition bind {A B} (m : M A) (k : A -> M B) : M B := fun h =>
  match m h with
  | (Ok a, h') => k a h'
  | (Raise e, h') => (Raise e, h')
  end.

Definition lift {A} (r : result A) : M A := fun h => (r, h).

Notation "'let!' x ':=' m 'in' k" := (bind m (fun x => k))
  (at level 10, x name, k at level 200).

(** [[]]: a fresh list object. *)
Definition new_list : M loc := fun h =>
  let l := fresh (dom h) in (Ok l, <[l := OList []]> h).

(** [l.append(x)] *)
Definition list_append (l : loc) (x : item) : M unit := fun h =>
  match h !! l with
  | Some (OList xs) => (Ok tt, <[l := OList (xs ++ [x])]> h)
  | _ => (Raise TypeError, h)
  end.

(** The elements of a list object, as [for x in l] visits them. *)
Definition list_items (l : loc) : M (list item) := fun h =>
  match h !! l with
  | Some (OList xs) => (Ok xs, h)
  | _ => (Raise TypeError, h)
  end.

(** The [dict] an element of the record set refers to. *)
Definition read_dict (r : item) : M record := fun h =>
  match r with
  | IRef l =>
      match h !! l with
      | Some (ODict d) => (Ok d, h)
      | _ => (Raise TypeError, h)
      end
  | IVal _ => (Raise TypeError, h)
  end.

Definition scalar (x : item) : result value :=
  match x with
  | IVal v => Ok v
  | IRef _ => Raise TypeError
  end.

Section Tolerances.
Context `{Re} {U : Unordered}.

Fixpoint group_loop (key : option string) (rgx : option pattern)
    (column : string) (convert_from_nanoseconds : option string)
    (results : list item) (values : loc) : M unit :=
  match results with
  | [] => ret tt
  | r :: rest =>
      let! d := read_dict r in
      let! skip := lift (target_excludes key rgx d) in
      if skip : bool then
        group_loop key rgx column convert_from_nanoseconds rest values
      else
        match d !! column with
        | None =>
            group_loop key rgx column convert_from_nanoseconds rest values
        | Some v =>
            let! v := lift (convert convert_from_nanoseconds v) in
            let! u := list_append values (IVal v) in
            group_loop key rgx column convert_from_nanoseconds rest values
        end
  end.

(** [group_values]; the result is the list object it has built. *)
Definition group_values (results : loc) (column : string)
    (target : option (string * string))
    (convert_from_nanoseconds : option string) : M loc :=
  let! values := new_list in
  let! kr := lift (match target with
                   | Some (k, p) => c ← re_compile p; Ok (Some k, Some c)
                   | None => Ok (None, None)
                   end) in
  let! rs := list_items results in
  let! u := group_loop kr.1 kr.2 column convert_from_nanoseconds rs values in
  ret values.

(** The scalars held by a list object. *)
Definition list_values (l : loc) : M (list value) :=
  let! xs := list_items l in lift (mapM scalar xs).

Definition median_should_be_below (column : string) (treshold : value)
    (convert_from_nanoseconds : option string)
    (target : option (string * string)) (value : loc) : M bool :=
  let! l := group_values value column target convert_from_nanoseconds in
  let! values := list_values l in
  let! m := lift (compute_median values) in
  lift (py_le m treshold).

Definition median_should_be_above (column : string) (treshold : value)
    (target : option (string * string))
    (convert_from_nanoseconds : option string) (value : loc) : M bool :=
  let! l := group_values value column target convert_from_nanoseconds in
  let! values := list_values l in
  let! m := lift (compute_median values) in
  lift (py_ge m treshold).

Definition percentile_should_be_below (column : string)
    (treshold : value) (percentile : Z)
    (target : option (string * string))
    (convert_from_nanoseconds : option string) (value : loc) : M bool :=
  let! l := group_values value column target convert_from_nanoseconds in
  let! values := list_values l in
  let! q := lift (compute_percentile values percentile) in
  lift (py_le q treshold).

Definition percentile_should_be_above (column : string)
    (treshold : value) (percentile : Z)
    (target : option (string * string))
    (convert_from_nanoseconds : option string) (value : loc) : M bool :=
  let! l := group_values value column target convert_from_nanoseconds in
  let! values := list_values l in
  let! q := lift (compute_percentile values percentile) in
  lift (py_ge q treshold).

End Tolerances.

(** A store that holds the record set [records] at [value]: a list of
    references to the dicts. *)
Definition holds (h : heap) (value : loc) (records : list record) : Prop :=
  exists ls : list loc,
    h !! value = Some (OList (IRef <$> ls)) /\
    Forall2 (fun l r => h !! l = Some (ODict r)) ls records.

End Store.

(** ** Shapes of data named in the statements *)

Definition is_float (v : value) : bool :=
  match v with VFloat _ => true | _ => false end.

(** The number that a scalar stands for: a dyadic number [m * 2^e] or an
    infinity; a NaN stands for none. *)
Inductive xnum : Type :=
  | NegInf
  | Dyadic (m e : Z)
  | PosInf.

Definition sf_value (f : spec_float) : option xnum :=
  match f with
  | S754_nan => None
  | S754_infinity s => Some (if s then NegInf else PosInf)
  | S754_zero _ => Some (Dyadic 0 0)
  | S754_finite s m e => Some (Dyadic (if s then Zneg m else Zpos m) e)
  end.

Definition num_value (n : num) : option xnum :=
  match n with
  | NInt z => Some (Dyadic z 0)
  | NFloat f => sf_value (Prim2SF f)
  end.

(** The order of these numbers: [m1 * 2^e1] and [m2 * 2^e2] are compared
    as integers, once both are written with the smaller exponent. *)
Definition xnum_compare (x y : xnum) : comparison :=
  match x, y with
  | NegInf, NegInf => Eq
  | NegInf, _ => Lt
  | _, NegInf => Gt
  | PosInf, PosInf => Eq
  | PosInf, _ => Gt
  | _, PosInf => Lt
  | Dyadic m1 e1, Dyadic m2 e2 =>
      let e := Z.min e1 e2 in
      m1 * 2 ^ (e1 - e) ?= m2 * 2 ^ (e2 - e)
  end.

(** [x <= y], [x >= y] and [x = y] as numbers; false with a NaN. *)
Definition num_le (x y : num) : bool :=
  match num_value x, num_value y with
  | Some a, Some b =>
      match xnum_compare a b with Gt => false | _ => true end
  | _, _ => false
  end.

Definition num_ge (x y : num) : bool :=
  match num_value x, num_value y with
  | Some a, Some b =>
      match xnum_compare a b with Lt => false | _ => true end
  | _, _ => false
  end.

Definition num_eq (x y : num) : bool :=
  match num_value x, num_value y with
  | Some a, Some b =>
      match xnum_compare a b with Eq => true | _ => false end
  | _, _ => false
  end.



(** Is the value at [k], if any, a string? *)
Definition str_or_absent (r : record) (k : string) : bool :=
  match r !! k with
  | Some (VStr _) | None => true
  | Some _ => false
  end.

(** ** Example data *)

Module Examples.

(** The rows of [test_median_should_be_below]. *)
Definition latencies : list record :=
  [ {[ "latency" := VFloat 0.5 ]};
    {[ "latency" := VFloat 0.8 ]};
    {[ "latency" := VFloat 0.9 ]} ].

(** The rows of [test_group_values_with_target]. *)
Definition pods : list record :=
  [ <["latency" := VFloat 0.5]> {[ "pod" := VStr "/consumer/1" ]};
    <["latency" := VFloat 0.8]> {[ "pod" := VStr "/consumer/2" ]};
    <["something" := VFloat 0.8]> {[ "pod" := VStr "/consumer/2" ]};
    <["latency" := VFloat 0.9]> {[ "pod" := VStr "/producer/3" ]} ].

(** A row the filter rejects and a row without the column. *)
Definition no_latency : list record :=
  [ <["latency" := VFloat 0.9]> {[ "pod" := VStr "/producer/3" ]};
    {[ "something" := VFloat 0.8 ]} ].

(** The pattern [/consumer.*], compiled. *)
Definition consumer : list SimpleRe.item :=
  Eval vm_compute in
    match SimpleRe.parse "/consumer.*" with Ok c => c | Raise _ => [] end.

(** A row whose [pod] is a number, not a string. *)
Definition numeric_pod : record :=
  <["latency" := VFloat 0.5]> {[ "pod" := VInt 1 ]}.

(** A row with a column whose name is the empty string. *)
Definition empty_key : record :=
  <["latency" := VFloat 1.0]> {[ "" := VStr "y" ]}.

(** The row of [test_group_values_convert_to_seconds]: 5 s, in ns. *)
Definition five_seconds : record :=
  <["latency" := VFloat 5.0e9]> {[ "pod" := VStr "/consumer/1" ]}.

(** A row of two columns, the second a time in nanoseconds, and a
    script whose stream yields this row and then fails. *)
Definition timed_row : Row :=
  {| _data := [PValue (VInt 1); PValue (VInt 1600)];
     get_col_name := py_getitem ["cola"; "time_"] |}.

Definition failing_script : Script :=
  {| results := fun _ => ([timed_row], Some ValueError) |}.

End Examples.

(** * Properties *)

Local Open Scope list_scope.

(** ** Numbers *)

Lemma is_float_number v : is_float v = true -> is_number v = true.
Proof. by destruct v. Qed.

Lemma forallb_Forall {A} (p : A -> bool) (l : list A) :
  forallb p l = true <-> Forall (fun x => p x = true) l.
Proof.
  induction l as [|x l IH]; simpl.
  - split; [constructor | done].
  - rewrite andb_true_iff, IH. split.
    + intros [? ?]. by constructor.
    + by inversion 1.
Qed.

Lemma py_lt_number x y :
  is_number x = true -> is_number y = true ->
  exists a b, as_num x = Some a /\ as_num y = Some b /\
              py_lt x y = Ok (Num.ltb a b).
Proof.
  unfold is_number, py_lt, py_rich.
  destruct (as_num x) as [a|], (as_num y) as [b|]; try done. eauto.
Qed.

Lemma float_of_int_2 : Num.float_of_int 2 = Ok 2%float.
Proof. vm_compute. reflexivity. Qed.

Lemma float_of_int_100 : Num.float_of_int 100 = Ok 100%float.
Proof. vm_compute. reflexivity. Qed.

Lemma py_add_float a b :
  py_add (VFloat a) (VFloat b) = Ok (VFloat (PrimFloat.add a b)).
Proof. reflexivity. Qed.

Lemma py_truediv_float_int a k f :
  Num.float_of_int k = Ok f -> Num.is_zero f = false ->
  py_truediv (VFloat a) (VInt k) = Ok (VFloat (PrimFloat.div a f)).
Proof.
  intros Hk Hz. unfold py_truediv, Num.truediv, as_num, Num.to_float.
  rewrite Hk. unfold mbind, result_bind, Num.float_truediv. by rewrite Hz.
Qed.

Lemma py_truediv_float_2 a :
  py_truediv (VFloat a) (VInt 2) = Ok (VFloat (PrimFloat.div a 2)).
Proof. by apply py_truediv_float_int; [apply float_of_int_2|vm_compute]. Qed.

Lemma py_truediv_float_100 a :
  py_truediv (VFloat a) (VInt 100) = Ok (VFloat (PrimFloat.div a 100)).
Proof. by apply py_truediv_float_int; [apply float_of_int_100|vm_compute]. Qed.

(** Whatever [/] returns is a [float]. *)
Lemma py_truediv_is_float a b v : py_truediv a b = Ok v -> is_float v = true.
Proof.
  unfold py_truediv. destruct (as_num a), (as_num b); try done.
  destruct (Num.truediv _ _); simpl; [|done]. by intros [= <-].
Qed.

(** The three ordering tests agree on equal numbers. *)
Lemma eqb_leb_geb x y :
  Num.eqb x y = true -> Num.leb x y = true /\ Num.geb x y = true.
Proof.
  unfold Num.eqb, Num.leb, Num.geb.
  by destruct (Num.compare x y) as [[]|].
Qed.

(** [leb] and [geb] are both true on equal numbers only. *)
Lemma leb_geb_eqb x y :
  Num.leb x y = true -> Num.geb x y = true -> Num.eqb x y = true.
Proof.
  unfold Num.eqb, Num.leb, Num.geb.
  by destruct (Num.compare x y) as [[]|].
Qed.

(** ** Lists and sorting *)

Lemma py_getitem_lookup {A} (l : list A) (i : nat) (x : A) :
  l !! i = Some x -> py_getitem l (Z.of_nat i) = Ok x.
Proof.
  intros Hx. pose proof (lookup_lt_Some _ _ _ Hx) as Hlt.
  unfold py_getitem. cbv zeta.
  destruct (Z.ltb_spec (Z.of_nat i) 0); [lia|].
  destruct (Z.ltb_spec (Z.of_nat i) 0); [lia|].
  destruct (Z.leb_spec (Z.of_nat (length l)) (Z.of_nat i)); [lia|].
  simpl. by rewrite Nat2Z.id, Hx.
Qed.

Lemma py_getitem_out_of_range {A} (l : list A) (i : Z) :
  Z.of_nat (length l) <= i -> py_getitem l i = Raise IndexError.
Proof.
  intros Hi. unfold py_getitem. cbv zeta.
  destruct (Z.ltb_spec i 0); [lia|].
  destruct (Z.leb_spec (Z.of_nat (length l)) i); [|lia].
  by rewrite orb_true_r.
Qed.

Lemma insert_sorted_number x l :
  is_number x = true -> Forall (fun v => is_number v = true) l ->
  exists r, insert_sorted x l = Ok r /\ r ≡ₚ x :: l.
Proof.
  intros Hx. induction 1 as [|y l Hy Hl IH]; simpl.
  - by exists [x].
  - destruct (py_lt_number x y Hx Hy) as (a & b & _ & _ & ->). simpl.
    destruct (Num.ltb a b).
    + by exists (x :: y :: l).
    + destruct IH as (r & -> & Hr). simpl. exists (y :: r). split; [done|].
      rewrite Hr. apply Permutation_swap.
Qed.

Lemma insertion_sort_number l :
  Forall (fun v => is_number v = true) l ->
  exists s, insertion_sort l = Ok s /\ s ≡ₚ l.
Proof.
  unfold insertion_sort.
  cut (forall acc, Forall (fun v => is_number v = true) acc ->
         Forall (fun v => is_number v = true) l ->
         exists s, foldl (fun acc x => l0 ← acc; insert_sorted x l0)
                     (Ok acc) l = Ok s /\ s ≡ₚ acc ++ l).
  { intros Hc Hl. destruct (Hc [] (Forall_nil_2 _) Hl) as (s & ? & ?).
    by exists s. }
  induction l as [|x l IH]; intros acc Hacc Hl; simpl.
  - exists acc. by rewrite app_nil_r.
  - inversion Hl as [|? ? Hx Hl']; subst.
    destruct (insert_sorted_number x acc Hx Hacc) as (r & -> & Hr).
    destruct (IH r) as (s & -> & Hs); [by rewrite Hr; constructor|done|].
    exists s. split; [done|]. rewrite Hs, Hr. simpl. apply Permutation_middle.
Qed.

(** *** The order of numbers *)

Lemma digits2_pos_bounds m :
  2 ^ (Zpos (digits2_pos m) - 1) <= Zpos m < 2 ^ Zpos (digits2_pos m).
Proof.
  induction m as [m IH|m IH|]; simpl digits2_pos.
  - rewrite Pos2Z.inj_succ.
    replace (Z.succ (Z.pos (digits2_pos m)) - 1)
      with (Z.succ (Z.pos (digits2_pos m) - 1)) by lia.
    rewrite !Z.pow_succ_r by lia. lia.
  - rewrite Pos2Z.inj_succ.
    replace (Z.succ (Z.pos (digits2_pos m)) - 1)
      with (Z.succ (Z.pos (digits2_pos m) - 1)) by lia.
    rewrite !Z.pow_succ_r by lia. lia.
  - simpl. lia.
Qed.

(** The mantissa of a double has at most 53 bits, and exactly 53 unless
    the exponent is the smallest one. *)
Lemma bounded_mantissa m e :
  bounded Num.prec Num.emax m e = true ->
  Zpos m < 2 ^ 53 /\ (-1074 < e -> 2 ^ 52 <= Zpos m) /\ -1074 <= e.
Proof.
  unfold bounded, canonical_mantissa, fexp. intros [Hc _]%andb_prop.
  apply Z.eqb_eq in Hc. pose proof (digits2_pos_bounds m) as [Hlo Hhi].
  set (d := Zpos (digits2_pos m)) in *.
  assert (0 < d) by (unfold d; lia).
  unfold Num.prec, Num.emax, SpecFloat.emin in *.
  split; [|split].
  - assert (d <= 53) by lia.
    eapply Z.lt_le_trans; [exact Hhi|]. apply Z.pow_le_mono_r; lia.
  - intros He. assert (d = 53) as Hd by lia. rewrite Hd in Hlo. exact Hlo.
  - lia.
Qed.

Lemma pos_lt_shift m1 m2 k :
  Zpos m1 < 2 ^ 53 -> 2 ^ 52 <= Zpos m2 -> 0 < k ->
  Zpos m1 < Zpos m2 * 2 ^ k.
Proof.
  intros H1 H2 Hk.
  assert (2 <= 2 ^ k).
  { replace 2 with (2 ^ 1) at 1 by reflexivity. apply Z.pow_le_mono_r; lia. }
  change (2 ^ 53) with (2 ^ 52 * 2) in H1. nia.
Qed.

(** The comparison of two doubles, by exponent and then by mantissa, is
    the comparison of the numbers they stand for. *)
Lemma SFcompare_value x y :
  valid_binary x = true -> valid_binary y = true ->
  SFcompare x y =
  match sf_value x, sf_value y with
  | Some a, Some b => Some (xnum_compare a b)
  | _, _ => None
  end.
Proof.
  destruct x as [sx|sx| |sx mx ex], y as [sy|sy| |sy my ey];
    cbv beta iota zeta delta [SFcompare sf_value xnum_compare];
    intros Hx Hy; try reflexivity;
    try (destruct sx; reflexivity); try (destruct sy; reflexivity);
    try (destruct sx, sy; reflexivity).
  - destruct sy; f_equal.
    + symmetry. apply Z.compare_gt_iff.
      assert (0 < 2 ^ (ey - Z.min 0 ey)) by (apply Z.pow_pos_nonneg; lia).
      nia.
    + symmetry. apply Z.compare_lt_iff.
      assert (0 < 2 ^ (ey - Z.min 0 ey)) by (apply Z.pow_pos_nonneg; lia).
      nia.
  - destruct sx; f_equal; symmetry.
    + apply Z.compare_lt_iff.
      assert (0 < 2 ^ (ex - Z.min ex 0)) by (apply Z.pow_pos_nonneg; lia).
      nia.
    + apply Z.compare_gt_iff.
      assert (0 < 2 ^ (ex - Z.min ex 0)) by (apply Z.pow_pos_nonneg; lia).
      nia.
  - destruct (bounded_mantissa mx ex Hx) as (Hx1 & Hx2 & Hex).
    destruct (bounded_mantissa my ey Hy) as (Hy1 & Hy2 & Hey).
    assert (0 < 2 ^ (ex - Z.min ex ey)) by (apply Z.pow_pos_nonneg; lia).
    assert (0 < 2 ^ (ey - Z.min ex ey)) by (apply Z.pow_pos_nonneg; lia).
    f_equal. destruct sx, sy.
    + destruct (Z.compare_spec ex ey) as [->|Hlt|Hgt].
      * rewrite Z.min_id, Z.sub_diag. simpl (2 ^ 0). rewrite !Z.mul_1_r.
        change (Z.neg mx ?= Z.neg my) with (CompOpp (Z.pos mx ?= Z.pos my)).
        reflexivity.
      * symmetry. apply Z.compare_gt_iff. rewrite Z.min_l by lia.
        rewrite Z.sub_diag. simpl (2 ^ 0).
        pose proof (pos_lt_shift mx my (ey - ex) Hx1 (Hy2 ltac:(lia))
                      ltac:(lia)).
        lia.
      * symmetry. apply Z.compare_lt_iff. rewrite Z.min_r by lia.
        rewrite Z.sub_diag. simpl (2 ^ 0).
        pose proof (pos_lt_shift my mx (ex - ey) Hy1 (Hx2 ltac:(lia))
                      ltac:(lia)).
        lia.
    + symmetry. apply Z.compare_lt_iff. nia.
    + symmetry. apply Z.compare_gt_iff. nia.
    + destruct (Z.compare_spec ex ey) as [->|Hlt|Hgt].
      * rewrite Z.min_id, Z.sub_diag. simpl (2 ^ 0). rewrite !Z.mul_1_r.
        reflexivity.
      * symmetry. apply Z.compare_lt_iff. rewrite Z.min_l by lia.
        rewrite Z.sub_diag. simpl (2 ^ 0).
        pose proof (pos_lt_shift mx my (ey - ex) Hx1 (Hy2 ltac:(lia))
                      ltac:(lia)).
        lia.
      * symmetry. apply Z.compare_gt_iff. rewrite Z.min_r by lia.
        rewrite Z.sub_diag. simpl (2 ^ 0).
        pose proof (pos_lt_shift my mx (ex - ey) Hy1 (Hx2 ltac:(lia))
                      ltac:(lia)).
        lia.
Qed.


Lemma xnum_compare_antisym x y :
  xnum_compare y x = CompOpp (xnum_compare x y).
Proof.
  destruct x as [|m1 e1|], y as [|m2 e2|]; try reflexivity.
  cbv beta iota zeta delta [xnum_compare].
  rewrite (Z.min_comm e2 e1). apply Z.compare_antisym.
Qed.


Lemma compare_int_float_value z f :
  Num.compare_int_float z f =
  match sf_value (Prim2SF f) with
  | Some b => Some (xnum_compare (Dyadic z 0) b)
  | None => None
  end.
Proof.
  unfold Num.compare_int_float.
  destruct (Prim2SF f) as [s|s| |s m e];
    cbv beta iota zeta delta [sf_value xnum_compare];
    try reflexivity; try (by destruct s).
  - by rewrite Z.min_id, Z.sub_diag, Z.pow_0_r, !Z.mul_1_r.
  - f_equal. destruct (Z.leb_spec 0 e).
    + rewrite Z.min_l by lia.
      by rewrite !Z.sub_0_r, Z.pow_0_r, Z.mul_1_r.
    + rewrite Z.min_r by lia.
      replace (0 - e) with (- e) by lia. replace (e - e) with 0 by lia.
      by rewrite Z.pow_0_r, Z.mul_1_r.
Qed.

(** Python's comparison of two numbers is the comparison of the numbers
    they stand for; with a NaN there is none. *)
Lemma compare_value a b :
  Num.compare a b =
  match num_value a, num_value b with
  | Some x, Some y => Some (xnum_compare x y)
  | _, _ => None
  end.
Proof.
  destruct a as [x|x], b as [y|y]; unfold Num.compare, num_value.
  - cbv beta iota zeta delta [xnum_compare].
    by rewrite Z.min_id, Z.sub_diag, Z.pow_0_r, !Z.mul_1_r.
  - apply compare_int_float_value.
  - rewrite compare_int_float_value.
    destruct (sf_value (Prim2SF x)) as [a|]; [|done].
    cbn [fmap option_fmap option_map].
    by rewrite <- xnum_compare_antisym.
  - apply SFcompare_value; apply Prim2SF_valid.
Qed.

Lemma leb_num_le a b : Num.leb a b = num_le a b.
Proof.
  unfold Num.leb, num_le. rewrite compare_value.
  destruct (num_value a), (num_value b); try done;
    by destruct (xnum_compare _ _).
Qed.

Lemma geb_num_ge a b : Num.geb a b = num_ge a b.
Proof.
  unfold Num.geb, num_ge. rewrite compare_value.
  destruct (num_value a), (num_value b); try done;
    by destruct (xnum_compare _ _).
Qed.

Lemma num_le_ge_eq a b :
  num_le a b && num_ge a b = num_eq a b.
Proof.
  unfold num_le, num_ge, num_eq.
  destruct (num_value a), (num_value b); try done;
    by destruct (xnum_compare _ _).
Qed.

Lemma num_le_int a b : num_le (NInt a) (NInt b) = (a <=? b).
Proof.
  unfold num_le, num_value. cbv beta iota zeta delta [xnum_compare].
  rewrite Z.min_id, Z.sub_diag, Z.pow_0_r, !Z.mul_1_r. unfold Z.leb.
  by destruct (a ?= b).
Qed.

Lemma num_ge_int a b : num_ge (NInt a) (NInt b) = (b <=? a).
Proof.
  unfold num_ge, num_value. cbv beta iota zeta delta [xnum_compare].
  rewrite Z.min_id, Z.sub_diag, Z.pow_0_r, !Z.mul_1_r. unfold Z.leb.
  rewrite (Z.compare_antisym a b).
  by destruct (a ?= b).
Qed.

(** On two floats it is the comparison of IEEE 754. *)
Lemma num_le_float a b : num_le (NFloat a) (NFloat b) = PrimFloat.leb a b.
Proof.
  rewrite <- leb_num_le. unfold Num.leb, Num.compare, Num.float_compare.
  rewrite leb_spec. unfold SFleb.
  by destruct (SFcompare _ _) as [[]|].
Qed.

Lemma num_ge_le a b : num_ge a b = num_le b a.
Proof.
  unfold num_ge, num_le.
  destruct (num_value a) as [x|], (num_value b) as [y|]; try done.
  rewrite (xnum_compare_antisym x y). by destruct (xnum_compare x y).
Qed.

Lemma num_ge_float a b : num_ge (NFloat a) (NFloat b) = PrimFloat.leb b a.
Proof. by rewrite num_ge_le, num_le_float. Qed.

(** *** Sorted lists *)








Section SortFacts.
Context {U : Unordered}.

(** Numbers can always be sorted, NaN or not. *)
Lemma sorted_number l :
  Forall (fun v => is_number v = true) l ->
  exists s, sorted l = Ok s /\ s ≡ₚ l.
Proof.
  intros Hl. unfold sorted.
  destruct l as [|x [|y l]]; [by exists []|by exists [x]|].
  destruct (existsb is_nan (x :: y :: l)).
  - apply forallb_Forall in Hl. rewrite Hl. eexists. split; [done|].
    apply sort_unordered_perm.
  - by apply insertion_sort_number.
Qed.

Lemma sorted_short l : (length l < 2)%nat -> sorted l = Ok l.
Proof. destruct l as [|x [|y l]]; simpl; [done|done|lia]. Qed.


(** ** The median *)

Lemma median_nil : median [] = Raise StatisticsError.
Proof. reflexivity. Qed.

Lemma quantiles_short data n :
  (length data < 2)%nat -> quantiles data n = Raise StatisticsError.
Proof.
  intros Hlen. unfold quantiles. destruct (n <? 1); [done|].
  rewrite (sorted_short _ Hlen). simpl.
  destruct (Z.ltb_spec (Z.of_nat (length data)) 2); [done|lia].
Qed.

(** An odd number of data points: the middle one of the sorted data. *)
Lemma median_odd data s (k : nat) m :
  sorted data = Ok s -> length s = (2 * k + 1)%nat -> s !! k = Some m ->
  median data = Ok m.
Proof.
  intros Hs Hlen Hm. unfold median. rewrite Hs. simpl. rewrite Hlen.
  destruct (Z.eqb_spec (Z.of_nat (2 * k + 1)) 0); [lia|].
  assert (Z.of_nat (2 * k + 1) mod 2 = 1) as ->
    by (Z.div_mod_to_equations; lia).
  assert (Z.of_nat (2 * k + 1) / 2 = Z.of_nat k) as ->
    by (Z.div_mod_to_equations; lia).
  simpl. by apply py_getitem_lookup.
Qed.

(** An even number of data points: the two middle ones of the sorted
    data, added and halved. *)
Lemma median_even data s (k : nat) a b :
  sorted data = Ok s -> length s = (2 * k + 2)%nat ->
  s !! k = Some a -> s !! S k = Some b ->
  median data = (x ← py_add a b; py_truediv x (VInt 2)).
Proof.
  intros Hs Hlen Ha Hb. unfold median. rewrite Hs. simpl. rewrite Hlen.
  destruct (Z.eqb_spec (Z.of_nat (2 * k + 2)) 0); [lia|].
  assert (Z.of_nat (2 * k + 2) mod 2 = 0) as ->
    by (Z.div_mod_to_equations; lia).
  assert (Z.of_nat (2 * k + 2) / 2 = Z.of_nat (S k)) as ->
    by (Z.div_mod_to_equations; lia).
  simpl (0 =? 1). cbv iota.
  replace (Z.of_nat (S k) - 1) with (Z.of_nat k) by lia.
  rewrite (py_getitem_lookup _ _ _ Ha), (py_getitem_lookup _ _ _ Hb).
  reflexivity.
Qed.

(** The length of a list is odd or even. *)
Lemma length_parity {A} (l : list A) :
  l <> [] ->
  exists k : nat, length l = (2 * k + 1)%nat \/ length l = (2 * k + 2)%nat.
Proof.
  intros Hl. assert (length l <> 0%nat) by (by destruct l).
  exists ((length l - 1) / 2)%nat.
  pose proof (Nat.div_mod_eq (length l - 1) 2) as Hd.
  pose proof (Nat.mod_upper_bound (length l - 1) 2). lia.
Qed.

(** On floats the median is always defined, and is a float. *)
Lemma median_float_total data :
  data <> [] -> forallb is_float data = true ->
  exists m, median data = Ok (VFloat m).
Proof.
  intros Hne Hfl. apply forallb_Forall in Hfl.
  destruct (sorted_number data) as (s & Hs & Hperm).
  { eapply Forall_impl; [exact Hfl|]. intros v. apply is_float_number. }
  assert (Forall (fun v => is_float v = true) s) as Hfs by (by rewrite Hperm).
  assert (s <> []) as Hsne.
  { intros ->. apply Permutation_nil_l in Hperm. by subst. }
  destruct (length_parity s Hsne) as (k & [Hlen|Hlen]).
  - destruct (lookup_lt_is_Some_2 s k) as [m Hm]; [lia|].
    pose proof (Forall_lookup_1 _ _ _ _ Hfs Hm) as Hf.
    destruct m; try done. eexists. by eapply median_odd.
  - destruct (lookup_lt_is_Some_2 s k) as [a Ha]; [lia|].
    destruct (lookup_lt_is_Some_2 s (S k)) as [b Hb]; [lia|].
    pose proof (Forall_lookup_1 _ _ _ _ Hfs Ha) as Hfa.
    pose proof (Forall_lookup_1 _ _ _ _ Hfs Hb) as Hfb.
    destruct a as [| | |a|]; try done. destruct b as [| | |b|]; try done.
    rewrite (median_even _ _ _ _ _ Hs Hlen Ha Hb).
    rewrite py_add_float. simpl. rewrite py_truediv_float_2. eauto.
Qed.

(** ** Quantiles *)

Lemma mapM_result_Ok {A B} (f : A -> result B) (l : list A) (k : list B) :
  mapM f l = Ok k <-> Forall2 (fun x y => f x = Ok y) l k.
Proof.
  revert k. induction l as [|x l IH]; intros k; simpl.
  - split; [intros [= <-]; constructor | by inversion 1].
  - split.
    + destruct (f x) as [y|e] eqn:Hx; simpl; [|done].
      destruct (mapM f l) as [k'|e] eqn:Hl; simpl; [|done].
      intros [= <-]. constructor; [done|]. by apply IH.
    + inversion 1 as [|? y ? k' Hx Hl]; subst. rewrite Hx. simpl.
      apply IH in Hl. by rewrite Hl.
Qed.

Lemma mapM_result_total {A B} (f : A -> result B) (P : B -> Prop)
    (l : list A) :
  (forall x, x ∈ l -> exists y, f x = Ok y /\ P y) ->
  exists k, mapM f l = Ok k /\ length k = length l /\ Forall P k.
Proof.
  induction l as [|x l IH]; intros Hall; simpl.
  - by exists [].
  - destruct (Hall x) as (y & Hy & HP); [by left|]. rewrite Hy. simpl.
    destruct IH as (k & -> & Hlen & HPk); [intros; apply Hall; by right|].
    exists (y :: k). simpl. rewrite Hlen. split; [done|]. split; [done|].
    by constructor.
Qed.

Lemma py_getitem_elem {A} (l : list A) (i : Z) (x : A) :
  py_getitem l i = Ok x -> x ∈ l.
Proof.
  unfold py_getitem. cbv zeta.
  destruct (_ || _); [done|].
  destruct (l !! _) as [y|] eqn:Hy; [|done].
  intros [= <-]. by eapply list_elem_of_lookup_2.
Qed.

Lemma py_getitem_in_range {A} (l : list A) (i : Z) :
  0 <= i < Z.of_nat (length l) ->
  exists x, l !! Z.to_nat i = Some x /\ py_getitem l i = Ok x.
Proof.
  intros Hi. destruct (lookup_lt_is_Some_2 l (Z.to_nat i)) as [x Hx]; [lia|].
  exists x. split; [done|]. rewrite <- (Z2Nat.id i) at 1 by lia.
  by apply py_getitem_lookup.
Qed.

(** Every small integer is a double. *)
Lemma float_of_int_small k :
  -200 <= k <= 200 -> exists f, Num.float_of_int k = Ok f.
Proof.
  intros Hk.
  assert (forallb (fun k => match Num.float_of_int k with
                            | Ok _ => true
                            | Raise _ => false
                            end) (seqZ (-200) 401) = true) as Hall
    by (vm_compute; reflexivity).
  rewrite forallb_forall in Hall. specialize (Hall k).
  destruct (Num.float_of_int k) as [f|e]; [by exists f|].
  discriminate Hall. apply list_elem_of_In, elem_of_seqZ. lia.
Qed.

Lemma py_mul_float_int a k :
  -200 <= k <= 200 ->
  exists f, py_mul (VFloat a) (VInt k) = Ok (VFloat f).
Proof.
  intros Hk. destruct (float_of_int_small k Hk) as [f Hf].
  exists (PrimFloat.mul a f). unfold py_mul, Num.mul. simpl.
  by rewrite Hf.
Qed.

(** The weights of a cut point are small, whatever the number of data
    points. *)
Lemma cut_point_weights ld i :
  2 <= ld -> 1 <= i <= 99 ->
  let j0 := i * (ld + 1) / 100 in
  let j := if j0 <? 1 then 1 else if ld - 1 <? j0 then ld - 1 else j0 in
  let delta := i * (ld + 1) - j * 100 in
  1 <= j <= ld - 1 /\ -200 <= delta <= 200 /\ -200 <= 100 - delta <= 200.
Proof.
  intros Hld Hi j0 j delta. subst delta j j0.
  assert (ld + 1 <= i * (ld + 1) <= 99 * (ld + 1)) as HP by nia.
  set (P := i * (ld + 1)) in *. clearbody P.
  pose proof (Z.div_mod P 100 ltac:(lia)) as Hdiv.
  pose proof (Z.mod_pos_bound P 100 ltac:(lia)) as Hmod.
  set (q := P / 100) in *. clearbody q.
  destruct (Z.ltb_spec q 1); [lia|].
  destruct (Z.ltb_spec (ld - 1) q); lia.
Qed.

Lemma cut_point_float data ld i :
  ld = Z.of_nat (length data) -> 2 <= ld -> 1 <= i <= 99 ->
  Forall (fun v => is_float v = true) data ->
  exists q, cut_point data ld (ld + 1) 100 i = Ok (VFloat q).
Proof.
  intros Hlen Hld Hi Hfl. unfold cut_point.
  destruct (cut_point_weights ld i Hld Hi) as (Hj & Hd & Hnd).
  cbv zeta in Hj, Hd, Hnd.
  set (j := if i * (ld + 1) / 100 <? 1 then 1
            else if ld - 1 <? i * (ld + 1) / 100 then ld - 1
                 else i * (ld + 1) / 100) in *.
  clearbody j. cbv zeta.
  destruct (py_getitem_in_range data (j - 1)) as (a & Ha & ->); [lia|].
  destruct (py_getitem_in_range data j) as (b & Hb & Hgb); [lia|].
  pose proof (Forall_lookup_1 _ _ _ _ Hfl Ha) as Hfa.
  pose proof (Forall_lookup_1 _ _ _ _ Hfl Hb) as Hfb.
  destruct a as [| | |a|]; try done. destruct b as [| | |b|]; try done.
  simpl.
  destruct (py_mul_float_int a (100 - (i * (ld + 1) - j * 100)) Hnd)
    as [x ->]. simpl. rewrite Hgb. simpl.
  destruct (py_mul_float_int b (i * (ld + 1) - j * 100) Hd) as [y ->].
  simpl. rewrite py_truediv_float_100. eauto.
Qed.

(** A cut point is a quotient, hence a double, whatever the data. *)
Lemma cut_point_is_float data ld m n i q :
  cut_point data ld m n i = Ok q -> is_float q = true.
Proof.
  unfold cut_point. cbv zeta.
  repeat (match goal with
          | |- context [mbind _ ?m] =>
              destruct m; simpl; [|discriminate]
          end).
  apply py_truediv_is_float.
Qed.

Lemma quantiles_are_floats data n cuts :
  quantiles data n = Ok cuts -> Forall (fun v => is_float v = true) cuts.
Proof.
  unfold quantiles. destruct (n <? 1); [done|].
  destruct (sorted data) as [s|e]; simpl; [|done].
  destruct (_ <? 2); [done|]. intros Hm%mapM_result_Ok.
  induction Hm as [|i q l k Hq _ IH]; constructor; [|done].
  by eapply cut_point_is_float.
Qed.

(** On two or more floats the 99 cut points are defined. *)
Lemma quantiles_float_total data :
  (2 <= length data)%nat -> forallb is_float data = true ->
  exists cuts, quantiles data 100 = Ok cuts /\ length cuts = 99%nat /\
               Forall (fun v => is_float v = true) cuts.
Proof.
  intros Hlen Hfl. apply forallb_Forall in Hfl.
  destruct (sorted_number data) as (s & Hs & Hperm).
  { eapply Forall_impl; [exact Hfl|]. intros v. apply is_float_number. }
  assert (Forall (fun v => is_float v = true) s) as Hfs by (by rewrite Hperm).
  assert (length s = length data) as Hls by (by rewrite Hperm).
  unfold quantiles. simpl (100 <? 1). cbv iota. rewrite Hs. simpl.
  destruct (Z.ltb_spec (Z.of_nat (length s)) 2); [lia|].
  destruct (mapM_result_total
              (cut_point s (Z.of_nat (length s)) (Z.of_nat (length s) + 1) 100)
              (fun v => is_float v = true) (seqZ 1 99))
    as (cuts & Hc & Hlc & Hfc).
  { intros i Hin%elem_of_seqZ.
    destruct (cut_point_float s (Z.of_nat (length s)) i) as [q Hq];
      [done|lia|lia|done|]. by exists (VFloat q). }
  exists cuts. rewrite length_seqZ in Hlc. by repeat split.
Qed.

End SortFacts.

(** ** What arithmetic can raise *)

Lemma float_of_int_raises z e :
  Num.float_of_int z = Raise e -> e = OverflowError.
Proof.
  unfold Num.float_of_int. destruct (binary_normalize _ _ _ _ _); congruence.
Qed.

Lemma to_float_raises n e : Num.to_float n = Raise e -> e = OverflowError.
Proof. destruct n; simpl; [apply float_of_int_raises|done]. Qed.





(** ** The extraction pipeline *)

Section ToleranceFacts.
Context `{Re} {U : Unordered}.

Implicit Types (r : record) (results rest : list record).
Implicit Types (values : list value) (column : string).

(** The list built so far is only ever extended. *)
Lemma group_loop_acc key rgx column conv results values :
  group_loop key rgx column conv results values =
  (vs ← group_loop key rgx column conv results []; Ok (values ++ vs)).
Proof.
  revert values. induction results as [|r rest IH]; intros values; simpl.
  - by rewrite app_nil_r.
  - destruct (target_excludes key rgx r) as [[|]|e]; simpl; [apply IH| |done].
    destruct (r !! column) as [v|]; [|apply IH].
    destruct (convert conv v) as [v'|e]; simpl; [|done].
    rewrite (IH (values ++ [v'])), (IH [v']).
    destruct (group_loop key rgx column conv rest []) as [vs|e]; simpl;
      [|done].
    by rewrite <- app_assoc.
Qed.

Lemma group_values_compiled k p c column conv results :
  re_compile p = Ok c ->
  group_values results column (Some (k, p)) conv =
  group_loop (Some k) (Some c) column conv results [].
Proof. intros Hc. unfold group_values. by rewrite Hc. Qed.

Lemma group_values_no_target column conv results :
  group_values results column None conv =
  group_loop None None column conv results [].
Proof. reflexivity. Qed.

(** One step of the loop, in terms of the records that follow. *)
Lemma group_loop_cons key rgx column conv r rest :
  group_loop key rgx column conv (r :: rest) [] =
  (skip ← target_excludes key rgx r;
   if skip : bool then group_loop key rgx column conv rest []
   else match r !! column with
        | None => group_loop key rgx column conv rest []
        | Some v =>
            v' ← convert conv v;
            vs ← group_loop key rgx column conv rest [];
            Ok (v' :: vs)
        end).
Proof.
  simpl. destruct (target_excludes key rgx r) as [[|]|e]; simpl; try done.
  destruct (r !! column) as [v|]; [|done].
  destruct (convert conv v) as [v'|e]; simpl; [|done].
  by rewrite group_loop_acc.
Qed.

(** Records that are filtered out or lack the column leave nothing. *)
Lemma group_loop_nothing key rgx column conv results :
  Forall (fun r => target_excludes key rgx r = Ok true \/
                   (target_excludes key rgx r = Ok false /\
                    r !! column = None)) results ->
  group_loop key rgx column conv results [] = Ok [].
Proof.
  induction 1 as [|r rest [Hr|[Hr Hc]] _ IH]; [done| |];
    rewrite group_loop_cons, Hr; simpl; [done|by rewrite Hc].
Qed.

(** The empty record set, with or without a filter. *)
Lemma group_values_empty column target conv :
  (forall k p, target = Some (k, p) -> exists c, re_compile p = Ok c) ->
  group_values [] column target conv = Ok [].
Proof.
  intros Hc. destruct target as [[k p]|]; [|done].
  destruct (Hc k p eq_refl) as [c Hp]. by rewrite (group_values_compiled _ _ c).
Qed.

(** No record has the column, and there is no filter. *)
Lemma group_values_no_column column conv results :
  Forall (fun r => r !! column = None) results ->
  group_values results column None conv = Ok [].
Proof.
  intros Hall. rewrite group_values_no_target. apply group_loop_nothing.
  eapply Forall_impl; [exact Hall|]. intros r Hr. right. by split.
Qed.

(** Every record has the filter key, with a string the pattern does not
    match. *)
Lemma group_values_all_filtered k p c column conv results :
  re_compile p = Ok c -> String.eqb k "" = false ->
  Forall (fun r => exists s, r !! k = Some (VStr s) /\
                             re_match c s = false) results ->
  group_values results column (Some (k, p)) conv = Ok [].
Proof.
  intros Hc Hk Hall. rewrite (group_values_compiled _ _ c) by done.
  apply group_loop_nothing. eapply Forall_impl; [exact Hall|].
  intros r (s & Hs & Hm). left. unfold target_excludes. simpl.
  by rewrite Hk, Hs, Hm.
Qed.

Lemma compute_median_nil :
  compute_median [] = Raise (ActivityFailed "failed to compute median").
Proof. reflexivity. Qed.

Lemma compute_percentile_short values percentile :
  (length values < 2)%nat ->
  compute_percentile values percentile =
  Raise (ActivityFailed "failed to compute percentiles").
Proof.
  intros Hlen. unfold compute_percentile.
  by rewrite (quantiles_short _ _ Hlen).
Qed.

(** C1.  When the extracted value list is empty, each of the four
    operations raises [ActivityFailed], with message "failed to compute
    median" for the two median operations and "failed to compute
    percentiles" for the two percentile operations; none returns a
    boolean. *)
Theorem empty_extraction_raises column treshold percentile target conv
    (value : list record) :
  group_values value column target conv = Ok [] ->
  median_should_be_below column treshold conv target value
    = Raise (ActivityFailed "failed to compute median") /\
  median_should_be_above column treshold target conv value
    = Raise (ActivityFailed "failed to compute median") /\
  percentile_should_be_below column treshold percentile target conv value
    = Raise (ActivityFailed "failed to compute percentiles") /\
  percentile_should_be_above column treshold percentile target conv value
    = Raise (ActivityFailed "failed to compute percentiles").
Proof.
  intros Hv.
  unfold median_should_be_below, median_should_be_above,
    percentile_should_be_below, percentile_should_be_above.
  rewrite Hv. repeat split; reflexivity.
Qed.

(** *** The target filter *)

Lemma target_excludes_str k c r s :
  String.eqb k "" = false -> r !! k = Some (VStr s) ->
  target_excludes (Some k) (Some c) r = Ok (negb (re_match c s)).
Proof. intros Hk Hs. unfold target_excludes. simpl. by rewrite Hk, Hs. Qed.

Lemma target_excludes_absent k rgx r :
  r !! k = None -> target_excludes (Some k) rgx r = Ok false.
Proof.
  intros Hr. unfold target_excludes. simpl.
  destruct (String.eqb k ""); simpl; [done|]. by rewrite Hr.
Qed.

Lemma target_excludes_empty_key rgx r :
  target_excludes (Some "") rgx r = Ok false.
Proof. reflexivity. Qed.

Lemma target_excludes_not_str k c r v :
  String.eqb k "" = false -> r !! k = Some v ->
  (forall s, v <> VStr s) ->
  target_excludes (Some k) (Some c) r = Raise TypeError.
Proof.
  intros Hk Hv Hns. unfold target_excludes. simpl. rewrite Hk, Hv. simpl.
  destruct v; try done. by destruct (Hns s).
Qed.

(** C2 (amended).  With a filter [(k, p)] whose pattern compiles, and a
    record whose value at [k], if any, is a string: the filter step
    excludes the record if and only if [k] is not the empty string, [k]
    is a key of the record and the pattern does not match the value at
    [k].  An excluded record contributes nothing, whatever its columns;
    a record without the key [k] goes on to column extraction, and so
    does every record when there is no filter. *)
Theorem target_filter_semantics k p c column conv r rest :
  re_compile p = Ok c -> str_or_absent r k = true ->
  let excluded :=
    negb (String.eqb k "") &&
    match r !! k with
    | Some (VStr s) => negb (re_match c s)
    | _ => false
    end in
  target_excludes (Some k) (Some c) r = Ok excluded /\
  group_values (r :: rest) column (Some (k, p)) conv =
    (if excluded then group_values rest column (Some (k, p)) conv
     else match r !! column with
          | None => group_values rest column (Some (k, p)) conv
          | Some v =>
              v' ← convert conv v;
              vs ← group_values rest column (Some (k, p)) conv;
              Ok (v' :: vs)
          end) /\
  group_values (r :: rest) column None conv =
    match r !! column with
    | None => group_values rest column None conv
    | Some v =>
        v' ← convert conv v;
        vs ← group_values rest column None conv;
        Ok (v' :: vs)
    end.
Proof.
  intros Hc Hstr excluded.
  assert (target_excludes (Some k) (Some c) r = Ok excluded) as Hex.
  { unfold excluded, str_or_absent, target_excludes in *. simpl.
    destruct (String.eqb k ""); simpl; [done|].
    destruct (r !! k) as [[]|]; done. }
  split; [exact Hex|]. split.
  - rewrite !(group_values_compiled _ _ c) by done.
    rewrite group_loop_cons, Hex. reflexivity.
  - rewrite !group_values_no_target, group_loop_cons. reflexivity.
Qed.

(** C6 (amended).  With a filter whose key [k] is not empty and is a key
    of the record: when the value at [k] is a string, the pattern is
    matched against that string, and the record is kept or excluded
    accordingly; the value is never turned into a string, so when it is
    anything else (a number, a boolean, [None]) the match test raises
    [TypeError] and so does the extraction. *)
Theorem filter_matches_strings_only k p c column conv r rest v :
  re_compile p = Ok c -> String.eqb k "" = false -> r !! k = Some v ->
  match v with
  | VStr s =>
      target_excludes (Some k) (Some c) r = Ok (negb (re_match c s)) /\
      group_values (r :: rest) column (Some (k, p)) conv =
        (if re_match c s then
           match r !! column with
           | None => group_values rest column (Some (k, p)) conv
           | Some x =>
               x' ← convert conv x;
               vs ← group_values rest column (Some (k, p)) conv;
               Ok (x' :: vs)
           end
         else group_values rest column (Some (k, p)) conv)
  | _ =>
      target_excludes (Some k) (Some c) r = Raise TypeError /\
      group_values (r :: rest) column (Some (k, p)) conv = Raise TypeError
  end.
Proof.
  intros Hc Hk Hv.
  rewrite !(group_values_compiled _ _ c) by done. rewrite group_loop_cons.
  destruct v as [| b | z | f | s];
    try (rewrite (target_excludes_not_str k c r _ Hk Hv) by done;
         by split).
  rewrite (target_excludes_str k c r s Hk Hv). split; [done|].
  by destruct (re_match c s).
Qed.

(** *** Unit conversion *)



(** *** Comparison with the threshold *)

Lemma py_le_num m t x y :
  as_num m = Some x -> as_num t = Some y -> py_le m t = Ok (Num.leb x y).
Proof. intros Hx Hy. unfold py_le, py_rich. by rewrite Hx, Hy. Qed.

Lemma py_ge_num m t x y :
  as_num m = Some x -> as_num t = Some y -> py_ge m t = Ok (Num.geb x y).
Proof. intros Hx Hy. unfold py_ge, py_rich. by rewrite Hx, Hy. Qed.

Lemma compute_median_float values :
  values <> [] -> forallb is_float values = true ->
  exists m, compute_median values = Ok (VFloat m).
Proof.
  intros Hne Hfl. destruct (median_float_total values Hne Hfl) as [m Hm].
  exists m. unfold compute_median. by rewrite Hm.
Qed.

(** C3.  Let [values] be the extracted list and the threshold the number
    [y].  When the median is the number [x], [median_should_be_below]
    returns whether [x <= y] and [median_should_be_above] whether
    [x >= y], in the order of the numbers that [x] and [y] stand for; when
    the requested percentile is the number [x], so do
    [percentile_should_be_below] and [percentile_should_be_above].  Both
    answers are true exactly when [x] and [y] are the same number.  On
    two ints the order is that of the integers, on two floats that of
    IEEE 754.  On a non-empty list of floats the median is defined and is
    a float. *)
Theorem inclusive_comparison column treshold percentile target conv
    (value : list record) values y :
  group_values value column target conv = Ok values ->
  as_num treshold = Some y ->
  (forall m x, compute_median values = Ok m -> as_num m = Some x ->
     median_should_be_below column treshold conv target value
       = Ok (num_le x y) /\
     median_should_be_above column treshold target conv value
       = Ok (num_ge x y)) /\
  (forall q x, compute_percentile values percentile = Ok q ->
     as_num q = Some x ->
     percentile_should_be_below column treshold percentile target conv value
       = Ok (num_le x y) /\
     percentile_should_be_above column treshold percentile target conv value
       = Ok (num_ge x y)) /\
  (forall x, num_eq x y = true <->
             num_le x y = true /\ num_ge x y = true) /\
  (forall a b : Z, num_le (NInt a) (NInt b) = (a <=? b) /\
                   num_ge (NInt a) (NInt b) = (b <=? a)) /\
  (forall a b : float, num_le (NFloat a) (NFloat b) = PrimFloat.leb a b /\
                       num_ge (NFloat a) (NFloat b) = PrimFloat.leb b a) /\
  (values <> [] -> forallb is_float values = true ->
   exists m, compute_median values = Ok (VFloat m)).
Proof.
  intros Hv Hy.
  unfold median_should_be_below, median_should_be_above,
    percentile_should_be_below, percentile_should_be_above.
  rewrite Hv. simpl. split; [|split; [|split; [|split; [|split]]]].
  - intros m x Hm Hx. rewrite Hm. simpl.
    rewrite (py_le_num _ _ _ _ Hx Hy), (py_ge_num _ _ _ _ Hx Hy).
    by rewrite leb_num_le, geb_num_ge.
  - intros q x Hq Hx. rewrite Hq. simpl.
    rewrite (py_le_num _ _ _ _ Hx Hy), (py_ge_num _ _ _ _ Hx Hy).
    by rewrite leb_num_le, geb_num_ge.
  - intros x. rewrite <- num_le_ge_eq. apply andb_true_iff.
  - intros a b. split; [apply num_le_int | apply num_ge_int].
  - intros a b. split; [apply num_le_float | apply num_ge_float].
  - apply compute_median_float.
Qed.

(** *** Percentiles *)

(** [quantiles(values, n=n)] has [n - 1] cut points. *)
Lemma quantiles_length values n cuts :
  quantiles values n = Ok cuts -> length cuts = Z.to_nat (n - 1).
Proof.
  unfold quantiles. destruct (n <? 1); [done|].
  destruct (sorted values) as [s|e]; simpl; [|done].
  destruct (_ <? 2); [done|]. intros Hm%mapM_result_Ok.
  apply Forall2_length in Hm. by rewrite length_seqZ in Hm.
Qed.

Lemma quantiles_100_length values cuts :
  quantiles values 100 = Ok cuts -> length cuts = 99%nat.
Proof. intros Hq. by rewrite (quantiles_length _ _ _ Hq). Qed.

Lemma compute_percentile_in_range values cuts percentile :
  quantiles values 100 = Ok cuts -> 1 <= percentile <= 99 ->
  exists f, cuts !! Z.to_nat (percentile - 1) = Some (VFloat f) /\
            compute_percentile values percentile = Ok (VFloat f).
Proof.
  intros Hq Hp. pose proof (quantiles_100_length _ _ Hq) as Hlen.
  destruct (py_getitem_in_range cuts (percentile - 1)) as (q & Hl & Hg);
    [lia|].
  pose proof (quantiles_are_floats _ _ _ Hq) as Hfl.
  pose proof (Forall_lookup_1 _ _ _ _ Hfl Hl) as Hf.
  destruct q as [| | |f|]; try done. exists f. split; [done|].
  unfold compute_percentile. rewrite Hq. simpl. by rewrite Hg.
Qed.

Lemma compute_percentile_100 values cuts :
  quantiles values 100 = Ok cuts ->
  compute_percentile values 100 = Raise IndexError.
Proof.
  intros Hq. pose proof (quantiles_100_length _ _ Hq) as Hlen.
  unfold compute_percentile. rewrite Hq. simpl.
  rewrite py_getitem_out_of_range by lia. reflexivity.
Qed.

(** C5 (amended).  Let [values] be the extracted list and [y] the
    threshold.  When [quantiles(values, n=100)] returns, it returns 99 cut
    points; for a percentile [p] from 1 to 99 the operations compare the
    cut point at index [p - 1], a float, with the threshold; for [p = 100]
    there is no such cut point and both operations raise [IndexError].
    The cut points are defined for every list of two or more floats; with
    fewer than two values both operations raise [ActivityFailed] with
    message "failed to compute percentiles". *)
Theorem percentile_selects_cut_point column treshold percentile target conv
    (value : list record) values y :
  group_values value column target conv = Ok values ->
  as_num treshold = Some y ->
  (forall cuts, quantiles values 100 = Ok cuts ->
     length cuts = 99%nat /\
     (1 <= percentile <= 99 ->
      exists q, cuts !! Z.to_nat (percentile - 1) = Some (VFloat q) /\
        percentile_should_be_below column treshold percentile target conv
          value = Ok (Num.leb (NFloat q) y) /\
        percentile_should_be_above column treshold percentile target conv
          value = Ok (Num.geb (NFloat q) y)) /\
     (percentile = 100 ->
        percentile_should_be_below column treshold percentile target conv
          value = Raise IndexError /\
        percentile_should_be_above column treshold percentile target conv
          value = Raise IndexError)) /\
  ((2 <= length values)%nat -> forallb is_float values = true ->
   exists cuts, quantiles values 100 = Ok cuts) /\
  ((length values < 2)%nat ->
     percentile_should_be_below column treshold percentile target conv value
       = Raise (ActivityFailed "failed to compute percentiles") /\
     percentile_should_be_above column treshold percentile target conv value
       = Raise (ActivityFailed "failed to compute percentiles")).
Proof.
  intros Hv Hy.
  unfold percentile_should_be_below, percentile_should_be_above.
  rewrite Hv. simpl. split; [|split].
  - intros cuts Hq. split; [by eapply quantiles_100_length|]. split.
    + intros Hp.
      destruct (compute_percentile_in_range _ _ _ Hq Hp) as (q & Hl & ->).
      exists q. simpl. split; [done|].
      split; [by apply py_le_num | by apply py_ge_num].
    + intros ->. by rewrite (compute_percentile_100 _ _ Hq).
  - intros Hlen Hfl.
    destruct (quantiles_float_total values Hlen Hfl) as (cuts & ? & _).
    by exists cuts.
  - intros Hlen. by rewrite (compute_percentile_short _ _ Hlen).
Qed.

(** *** The median *)

Lemma compute_median_Ok values m :
  median values = Ok m -> compute_median values = Ok m.
Proof. intros Hm. unfold compute_median. by rewrite Hm. Qed.


End ToleranceFacts.

(** The filter rejects the first row and the second has no [latency]:
    nothing is extracted and the four operations raise. *)
Lemma empty_extraction_raises_witness :
  median_should_be_below (H := SimpleRe.engine)
      (U := Unsorted.keep) "latency" (VFloat 1) None
    (Some ("pod", "/consumer.*")) Examples.no_latency
    = Raise (ActivityFailed "failed to compute median") /\
  median_should_be_above (H := SimpleRe.engine)
      (U := Unsorted.keep) "latency" (VFloat 1)
    (Some ("pod", "/consumer.*")) None Examples.no_latency
    = Raise (ActivityFailed "failed to compute median") /\
  percentile_should_be_below (H := SimpleRe.engine)
      (U := Unsorted.keep) "latency" (VFloat 1) 99
    (Some ("pod", "/consumer.*")) None Examples.no_latency
    = Raise (ActivityFailed "failed to compute percentiles") /\
  percentile_should_be_above (H := SimpleRe.engine)
      (U := Unsorted.keep) "latency" (VFloat 1) 99
    (Some ("pod", "/consumer.*")) None Examples.no_latency
    = Raise (ActivityFailed "failed to compute percentiles").
Proof.
  apply (empty_extraction_raises (H := SimpleRe.engine) (U := Unsorted.keep)).
  vm_compute. reflexivity.
Defined.

Example group_values_with_target :
  group_values (H := SimpleRe.engine) Examples.pods "latency"
    (Some ("pod", "/consumer.*")) None = Ok [VFloat 0.5; VFloat 0.8].
Proof. vm_compute. reflexivity. Qed.

(** ** Credentials *)

(** C8 (amended).  Each connection parameter is read from its environment
    variable first, and from the configuration (cluster id, server URL)
    or the secrets (API key, under [api_key]) only when the variable is
    not set; the server URL alone has a default.  [get_auth] raises
    [InvalidExperiment] exactly when the cluster id, or else the API key,
    resolved this way is missing or empty, and otherwise returns the three
    resolved values. *)
Theorem get_auth_layers url environ configuration secrets :
  let conf := default ∅ configuration in
  let sec := default ∅ secrets in
  let id := match environ !! "PIXIE_CLUSTER_ID" with
            | Some s => VStr s
            | None => default VNone (conf !! "pixie_cluster_id")
            end in
  let key := match environ !! "PIXIE_API_KEY" with
             | Some s => VStr s
             | None => default VNone (sec !! "api_key")
             end in
  let server := match environ !! "PIXIE_SERVER_URL" with
                | Some s => VStr s
                | None => default (VStr url) (conf !! "px_server_url")
                end in
  (get_auth url environ configuration secrets
     = Raise (InvalidExperiment missing_cluster_id) <-> truthy id = false) /\
  (get_auth url environ configuration secrets
     = Raise (InvalidExperiment missing_api_key) <->
   truthy id = true /\ truthy key = false) /\
  (forall auth, get_auth url environ configuration secrets = Ok auth <->
     truthy id = true /\ truthy key = true /\
     auth = {[ "px_cluster_id" := id; "px_key" := key;
               "px_server_url" := server ]}).
Proof.
  intros conf sec id key server.
  assert (get_auth url environ configuration secrets =
          if negb (truthy id) then Raise (InvalidExperiment missing_cluster_id)
          else if negb (truthy key)
               then Raise (InvalidExperiment missing_api_key)
               else Ok {[ "px_cluster_id" := id; "px_key" := key;
                          "px_server_url" := server ]}) as ->.
  { unfold get_auth, getenv, dict_get, id, key, server, conf, sec.
    destruct (environ !! "PIXIE_CLUSTER_ID"), (environ !! "PIXIE_API_KEY"),
      (environ !! "PIXIE_SERVER_URL"),
      (default ∅ configuration !! "pixie_cluster_id"),
      (default ∅ secrets !! "api_key"),
      (default ∅ configuration !! "px_server_url"); reflexivity. }
  destruct (truthy id), (truthy key); simpl;
    (split; [|split]); try intros auth; split; try done;
    try (intros (? & ? & ?); done); try (intros (? & ?); done).
  - intros [= <-]. done.
  - intros (_ & _ & ->). done.
Qed.

(** A variable set in the environment shadows the configuration, and a
    variable set to the empty string makes [get_auth] fail although the
    configuration holds a cluster id. *)
Lemma environment_shadows_configuration :
  get_auth "https://work.withpixie.ai:443"
    {[ "PIXIE_CLUSTER_ID" := "from-env" ]}
    (Some {[ "pixie_cluster_id" := VStr "from-config" ]})
    (Some {[ "api_key" := VStr "secret" ]})
  = Ok {[ "px_cluster_id" := VStr "from-env"; "px_key" := VStr "secret";
          "px_server_url" := VStr "https://work.withpixie.ai:443" ]} /\
  get_auth "https://work.withpixie.ai:443"
    {[ "PIXIE_CLUSTER_ID" := "" ]}
    (Some {[ "pixie_cluster_id" := VStr "from-config" ]})
    (Some {[ "api_key" := VStr "secret" ]})
  = Raise (InvalidExperiment missing_cluster_id).
Proof. split; vm_compute; reflexivity. Qed.

(** ** Timestamps *)

(** A double with a fractional part is rounded to the nearest integer,
    and to the even one of the two when it lies half way. *)
Lemma round_half_even_nearest f s m e us :
  Prim2SF f = S754_finite s m e -> e < 0 -> round_half_even f = Ok us ->
  let d := 2 ^ (- e) in
  let n := if s then - us else us in
  2 * Z.abs (n * d - Zpos m) <= d /\
  (2 * Z.abs (n * d - Zpos m) = d -> Z.even us = true).
Proof.
  intros Hf He. unfold round_half_even. rewrite Hf.
  destruct (Z.leb_spec 0 e); [lia|]. cbv zeta.
  assert (0 < 2 ^ (- e)) as Hd by (apply Z.pow_pos_nonneg; lia).
  set (d := 2 ^ (- e)) in *. clearbody d.
  pose proof (Z.div_mod (Zpos m) d ltac:(lia)) as Hdiv.
  pose proof (Z.mod_pos_bound (Zpos m) d Hd) as Hmod.
  set (q := Zpos m / d) in *. set (r := Zpos m mod d) in *.
  clearbody q r.
  assert (forall v, Z.even (- v) = Z.even v) as Hopp
    by (intros v; apply Z.even_opp).
  destruct (Z.ltb_spec (2 * r) d), (Z.ltb_spec d (2 * r)); try lia.
  - intros [= <-]. destruct s; split; try nia.
  - intros [= <-]. destruct s; split; try nia.
  - destruct (Z.even q) eqn:Hq; intros [= <-].
    + destruct s; (split; [nia|]); intros _; by rewrite ?Hopp.
    + assert (Z.even (q + 1) = true) as Hq1.
      { rewrite Z.even_add, Hq. reflexivity. }
      destruct s; (split; [nia|]); intros _; by rewrite ?Hopp.
Qed.

(** C9 (amended).  The row's timestamp is the value of the first of
    [time_], [create_time], [start_time] that is a column of the row.
    When there is one, and it converts, the row gains (or has replaced)
    the entry [_dt], the ISO text of the UTC date and time that lies that
    many microseconds after 1970-01-01, the nanoseconds divided by 1000.0
    being rounded to the nearest whole microsecond (to the even one half
    way), not truncated; every other entry is left as it is; [_dt] is none
    of the three column names.  A row with none of the three columns is
    left unchanged. *)
Theorem handle_timestamp_derives r :
  let source :=
    match r !! "time_" with
    | Some t => Some t
    | None =>
        match r !! "create_time" with
        | Some t => Some t
        | None => r !! "start_time"
        end
    end in
  handle_timestamp r =
    match source with
    | Some nano =>
        x ← py_truediv nano (VFloat 1000.0);
        us ← timedelta_microseconds x;
        d ← epoch_plus us;
        Ok (<["_dt" := VStr (isoformat d)]> r)
    | None => Ok r
    end /\
  (forall r' k, handle_timestamp r = Ok r' -> k <> "_dt" ->
                r' !! k = r !! k) /\
  (forall f s m e us,
     Prim2SF f = S754_finite s m e -> e < 0 ->
     timedelta_microseconds (VFloat f) = Ok us ->
     let d := 2 ^ (- e) in
     let n := if s then - us else us in
     2 * Z.abs (n * d - Zpos m) <= d /\
     (2 * Z.abs (n * d - Zpos m) = d -> Z.even us = true)) /\
  "_dt" ∉ ["time_"; "create_time"; "start_time"].
Proof.
  intros source.
  assert (handle_timestamp r =
          match source with
          | Some nano =>
              x ← py_truediv nano (VFloat 1000.0);
              us ← timedelta_microseconds x;
              d ← epoch_plus us;
              Ok (<["_dt" := VStr (isoformat d)]> r)
          | None => Ok r
          end) as Heq.
  { unfold handle_timestamp, source, nanotime_to_datetime.
    destruct (r !! "time_") as [t|]; [|destruct (r !! "create_time") as [t|];
      [|destruct (r !! "start_time") as [t|]; [|done]]];
      destruct (py_truediv t _) as [x|]; simpl; try done;
      destruct (timedelta_microseconds x) as [us|]; simpl; try done;
      by destruct (epoch_plus us). }
  split; [exact Heq|]. split; [|split].
  - intros r' k. rewrite Heq. intros Hr' Hk. destruct source as [nano|].
    + destruct (py_truediv nano _) as [x|]; simpl in Hr'; [|done].
      destruct (timedelta_microseconds x) as [us|]; simpl in Hr'; [|done].
      destruct (epoch_plus us) as [d|]; simpl in Hr'; [|done].
      injection Hr' as <-. by rewrite lookup_insert_ne.
    + by injection Hr' as <-.
  - intros f s m e us Hf He Hus. eapply round_half_even_nearest; [done..|].
    simpl in Hus. destruct (round_half_even f) as [u|]; simpl in Hus; [|done].
    destruct (_ || _); [done|]. by injection Hus as ->.
  - rewrite !elem_of_cons, elem_of_nil. intros [?|[?|[?|?]]]; done.
Qed.

(** 1600 ns is 1.6 µs: truncation would give 1 µs, the row gets 2 µs; and
    2500 ns, half way, gets 2 µs. *)
Lemma timestamp_is_rounded :
  handle_timestamp {[ "time_" := VInt 1600 ]}
  = Ok (<["_dt" := VStr "1970-01-01T00:00:00.000002+00:00"]>
          {[ "time_" := VInt 1600 ]}) /\
  handle_timestamp {[ "time_" := VInt 2500 ]}
  = Ok (<["_dt" := VStr "1970-01-01T00:00:00.000002+00:00"]>
          {[ "time_" := VInt 2500 ]}).
Proof. split; vm_compute; reflexivity. Qed.

(** ** The record set is left alone *)

Section StoreFacts.
Context `{Re} {U : Unordered}.

Lemma bind_frame {A B} (m : Store.M A) (k : A -> Store.M B)
    (h0 h : Store.heap) :
  h0 ⊆ (m h).2 -> (forall a h', h0 ⊆ h' -> h0 ⊆ (k a h').2) ->
  h0 ⊆ (Store.bind m k h).2.
Proof.
  intros Hm Hk. unfold Store.bind. destruct (m h) as [[a|e] h']; simpl in *;
    [by apply Hk|done].
Qed.

Lemma lift_frame {A} (r : result A) (h0 h : Store.heap) :
  h0 ⊆ h -> h0 ⊆ (Store.lift r h).2.
Proof. done. Qed.

Lemma list_items_frame l (h0 h : Store.heap) :
  h0 ⊆ h -> h0 ⊆ (Store.list_items l h).2.
Proof. intros Hh. unfold Store.list_items. by destruct (h !! l) as [[]|]. Qed.

Lemma read_dict_frame r (h0 h : Store.heap) :
  h0 ⊆ h -> h0 ⊆ (Store.read_dict r h).2.
Proof.
  intros Hh. unfold Store.read_dict. destruct r as [v|l]; [done|].
  by destruct (h !! l) as [[]|].
Qed.

(** Appending to a list that the caller's store does not hold. *)
Lemma list_append_frame l x (h0 h : Store.heap) :
  h0 ⊆ h -> h0 !! l = None -> h0 ⊆ (Store.list_append l x h).2.
Proof.
  intros Hh Hl. unfold Store.list_append.
  destruct (h !! l) as [[d|xs]|]; simpl; try done.
  by apply insert_subseteq_r.
Qed.

Lemma list_values_frame l (h0 h : Store.heap) :
  h0 ⊆ h -> h0 ⊆ (Store.list_values l h).2.
Proof.
  intros Hh. unfold Store.list_values.
  apply bind_frame; [by apply list_items_frame|]. intros xs h' Hh'.
  by apply lift_frame.
Qed.

Lemma group_loop_frame key rgx column conv rs values (h0 h : Store.heap) :
  h0 ⊆ h -> h0 !! values = None ->
  h0 ⊆ (Store.group_loop key rgx column conv rs values h).2.
Proof.
  intros Hh Hv. revert h Hh. induction rs as [|r rs IH]; intros h Hh; simpl.
  - done.
  - apply bind_frame; [by apply read_dict_frame|]. intros d h1 Hh1.
    apply bind_frame; [by apply lift_frame|]. intros skip h2 Hh2.
    destruct skip; [by apply IH|].
    destruct (d !! column) as [v|]; [|by apply IH].
    apply bind_frame; [by apply lift_frame|]. intros v' h3 Hh3.
    apply bind_frame; [by apply list_append_frame|]. intros u h4 Hh4.
    by apply IH.
Qed.

Lemma group_values_frame results column target conv (h : Store.heap) :
  h ⊆ (Store.group_values results column target conv h).2.
Proof.
  unfold Store.group_values.
  assert (h !! fresh (dom h) = None) as Hfresh
    by (apply not_elem_of_dom, is_fresh).
  unfold Store.bind at 1. unfold Store.new_list. cbv zeta.
  set (values := fresh (dom h)) in *.
  assert (h ⊆ <[values := Store.OList []]> h) as Hh
    by (by apply insert_subseteq).
  revert Hh. generalize (<[values := Store.OList []]> h). intros h1 Hh1.
  apply bind_frame; [by apply lift_frame|]. intros kr h2 Hh2.
  apply bind_frame; [by apply list_items_frame|]. intros rs h3 Hh3.
  apply bind_frame; [by apply group_loop_frame|]. intros u h4 Hh4.
  done.
Qed.

(** A store that extends another holds the same record set. *)
Lemma holds_weaken (h h' : Store.heap) value records :
  h ⊆ h' -> Store.holds h value records -> Store.holds h' value records.
Proof.
  intros Hh (ls & Hv & Hrs). exists ls. split.
  - exact (lookup_weaken _ _ _ _ Hv Hh).
  - eapply Forall2_impl; [exact Hrs|]. intros l r Hl. simpl in *.
    exact (lookup_weaken _ _ _ _ Hl Hh).
Qed.

(** C10.  Run over a store [h], each of the four operations ends, whether
    it returns or raises, in a store that holds every object of [h] as it
    was: the list of records at [value] and every record it refers to are
    the same, so no record gains, loses or changes a key and the records
    keep their number and order. *)
Theorem tolerances_leave_records_unchanged column treshold percentile target
    conv value (h : Store.heap) :
  let unchanged (h' : Store.heap) :=
    h ⊆ h' /\
    forall records, Store.holds h value records ->
                    Store.holds h' value records in
  unchanged
    (Store.median_should_be_below column treshold conv target value h).2 /\
  unchanged
    (Store.median_should_be_above column treshold target conv value h).2 /\
  unchanged
    (Store.percentile_should_be_below column treshold percentile target conv
       value h).2 /\
  unchanged
    (Store.percentile_should_be_above column treshold percentile target conv
       value h).2.
Proof.
  intros unchanged.
  assert (forall h', h ⊆ h' -> unchanged h') as Hun.
  { intros h' Hh'. split; [done|]. intros records. by apply holds_weaken. }
  repeat split; apply Hun;
    unfold Store.median_should_be_below, Store.median_should_be_above,
      Store.percentile_should_be_below, Store.percentile_should_be_above.
  all: apply bind_frame; [apply group_values_frame|]; intros l h1 Hh1.
  all: apply bind_frame; [by apply list_values_frame|]; intros vs h2 Hh2.
  all: apply bind_frame; [by apply lift_frame|]; intros m h3 Hh3.
  all: by apply lift_frame.
Qed.

End StoreFacts.
Section StoreRefinement.
Context `{Re} {U : Unordered}.

Lemma mapM_scalar_IVal (vs : list value) :
  mapM Store.scalar (Store.IVal <$> vs) = Ok vs.
Proof.
  apply mapM_result_Ok. induction vs as [|v vs IH]; by constructor.
Qed.

(** The loop over the store computes what the loop over the rows
    computes, and leaves it in the list object [values]. *)
Lemma store_group_loop_refines key rgx column conv ls records values acc
    (h : Store.heap) :
  Forall2 (fun l r => h !! l = Some (Store.ODict r)) ls records ->
  h !! values = Some (Store.OList (Store.IVal <$> acc)) ->
  exists h',
    Store.group_loop key rgx column conv (Store.IRef <$> ls) values h
      = (match group_loop key rgx column conv records acc with
         | Ok _ => Ok tt
         | Raise e => Raise e
         end, h') /\
    forall vs, group_loop key rgx column conv records acc = Ok vs ->
               h' !! values = Some (Store.OList (Store.IVal <$> vs)).
Proof.
  revert records acc h.
  induction ls as [|l ls IH]; intros records acc h Hrs Hv;
    inversion Hrs as [|? r ? rest Hl Hrest]; subst; simpl.
  - exists h. split; [done|]. by intros vs [= <-].
  - unfold Store.bind at 1. simpl. rewrite Hl.
    unfold Store.bind at 1. unfold Store.lift at 1.
    destruct (target_excludes key rgx r) as [[|]|e]; simpl.
    + by apply IH.
    + destruct (r !! column) as [v|]; [|by apply IH].
      unfold Store.bind at 1. unfold Store.lift at 1.
      destruct (convert conv v) as [v'|e]; simpl;
        [|exists h; by split].
      unfold Store.bind at 1. unfold Store.list_append. rewrite Hv.
      apply IH.
      * eapply Forall2_impl; [exact Hrest|]. intros l' r' Hl'. simpl in *.
        rewrite lookup_insert_ne; [done|]. intros ->. congruence.
      * by rewrite lookup_insert_eq, fmap_app.
    + exists h. by split.
Qed.

Lemma store_group_values_refines column target conv value records
    (h : Store.heap) :
  Store.holds h value records ->
  exists l h',
    Store.group_values value column target conv h
      = (match group_values records column target conv with
         | Ok _ => Ok l
         | Raise e => Raise e
         end, h') /\
    forall vs, group_values records column target conv = Ok vs ->
               h' !! l = Some (Store.OList (Store.IVal <$> vs)).
Proof.
  intros (ls & Hv & Hrs). unfold group_values, Store.group_values.
  assert (h !! fresh (dom h) = None) as Hfresh
    by (apply not_elem_of_dom, is_fresh).
  unfold Store.bind at 1. unfold Store.new_list. cbv zeta.
  set (values := fresh (dom h)) in *. exists values.
  set (h1 := <[values := Store.OList []]> h).
  assert (h1 !! values = Some (Store.OList (Store.IVal <$> []))) as Hv1
    by (by apply lookup_insert_eq).
  assert (h1 !! value = Some (Store.OList (Store.IRef <$> ls))) as Hvalue.
  { unfold h1. rewrite lookup_insert_ne; [done|]. intros ->. congruence. }
  assert (Forall2 (fun l r => h1 !! l = Some (Store.ODict r)) ls records)
    as Hrs1.
  { eapply Forall2_impl; [exact Hrs|]. intros l r Hl. simpl in *. unfold h1.
    rewrite lookup_insert_ne; [done|]. intros ->. congruence. }
  clearbody h1. unfold Store.bind at 1. unfold Store.lift.
  destruct (match target with
            | Some (k, p) => c ← re_compile p; Ok (Some k, Some c)
            | None => Ok (None, None)
            end) as [[key rgx]|e]; simpl; [|exists h1; by split].
  unfold Store.bind, Store.list_items. rewrite Hvalue.
  destruct (store_group_loop_refines key rgx column conv ls records values
              [] h1 Hrs1 Hv1) as (h' & -> & Hh').
  exists h'.
  destruct (group_loop key rgx column conv records []) as [vs|e];
    by split.
Qed.

Lemma store_list_values l vs (h : Store.heap) :
  h !! l = Some (Store.OList (Store.IVal <$> vs)) ->
  Store.list_values l h = (Ok vs, h).
Proof.
  intros Hl. unfold Store.list_values, Store.bind, Store.list_items.
  rewrite Hl. unfold Store.lift. by rewrite mapM_scalar_IVal.
Qed.

(** Over a store that holds the record set, the four operations return
    or raise exactly what they do on the rows themselves. *)
Lemma store_refines column treshold percentile target conv value records
    (h : Store.heap) :
  Store.holds h value records ->
  (Store.median_should_be_below column treshold conv target value h).1
    = median_should_be_below column treshold conv target records /\
  (Store.median_should_be_above column treshold target conv value h).1
    = median_should_be_above column treshold target conv records /\
  (Store.percentile_should_be_below column treshold percentile target conv
     value h).1
    = percentile_should_be_below column treshold percentile target conv
        records /\
  (Store.percentile_should_be_above column treshold percentile target conv
     value h).1
    = percentile_should_be_above column treshold percentile target conv
        records.
Proof.
  intros Hh.
  destruct (store_group_values_refines column target conv value records h
              Hh) as (l & h' & Hg & Hl).
  unfold Store.median_should_be_below, Store.median_should_be_above,
    Store.percentile_should_be_below, Store.percentile_should_be_above,
    median_should_be_below, median_should_be_above,
    percentile_should_be_below, percentile_should_be_above.
  repeat split.
  all: unfold Store.bind at 1; rewrite Hg.
  all: destruct (group_values records column target conv) as [vs|e];
    [|done].
  all: unfold Store.bind at 1;
    rewrite (store_list_values l vs h' (Hl vs eq_refl)).
  all: unfold Store.bind, Store.lift; simpl.
  all: by destruct (compute_median vs), (compute_percentile vs percentile).
Qed.

End StoreRefinement.

(** ** The statements at the rows of the test suite *)

(** The first row of the test data passes the filter [/consumer.*]. *)
Lemma target_filter_semantics_witness :
  target_excludes (H := SimpleRe.engine) (Some "pod")
    (Some Examples.consumer)
    (<["latency" := VFloat 0.5]> {[ "pod" := VStr "/consumer/1" ]})
  = Ok false.
Proof.
  destruct (target_filter_semantics (H := SimpleRe.engine)
              "pod" "/consumer.*" Examples.consumer "latency" None
              (<["latency" := VFloat 0.5]> {[ "pod" := VStr "/consumer/1" ]})
              [] ltac:(vm_compute; reflexivity)
              ltac:(vm_compute; reflexivity)) as [Hex _].
  exact Hex.
Defined.

(** With the empty string as filter key, a row that has this key with a
    value the pattern does not match is kept all the same: [if key] is
    false for the empty string. *)
Lemma empty_filter_key_keeps_record :
  Examples.empty_key !! "" = Some (VStr "y") /\
  (c ← re_compile (Re := SimpleRe.engine) "x"; Ok (re_match c "y"))
    = Ok false /\
  group_values (H := SimpleRe.engine) [Examples.empty_key] "latency"
    (Some ("", "x")) None = Ok [VFloat 1.0].
Proof. repeat split; vm_compute; reflexivity. Qed.

(** The median of the test rows is 0.8: it is below 1.0 and not above
    it, above 0.5 and not below it, and both below and above 0.8. *)
Lemma inclusive_comparison_witness :
  (median_should_be_below (H := SimpleRe.engine) (U := Unsorted.keep)
     "latency" (VFloat 1.0) None None Examples.latencies = Ok true /\
   median_should_be_above (H := SimpleRe.engine) (U := Unsorted.keep)
     "latency" (VFloat 1.0) None None Examples.latencies = Ok false) /\
  (median_should_be_below (H := SimpleRe.engine) (U := Unsorted.keep)
     "latency" (VFloat 0.5) None None Examples.latencies = Ok false /\
   median_should_be_above (H := SimpleRe.engine) (U := Unsorted.keep)
     "latency" (VFloat 0.5) None None Examples.latencies = Ok true) /\
  (median_should_be_below (H := SimpleRe.engine) (U := Unsorted.keep)
     "latency" (VFloat 0.8) None None Examples.latencies = Ok true /\
   median_should_be_above (H := SimpleRe.engine) (U := Unsorted.keep)
     "latency" (VFloat 0.8) None None Examples.latencies = Ok true) /\
  (median_should_be_below (H := SimpleRe.engine) (U := Unsorted.keep)
     "latency" (VInt 0) None None Examples.latencies = Ok false /\
   median_should_be_above (H := SimpleRe.engine) (U := Unsorted.keep)
     "latency" (VInt 0) None None Examples.latencies = Ok true).
Proof.
  assert (group_values (H := SimpleRe.engine) Examples.latencies "latency"
            None None = Ok [VFloat 0.5; VFloat 0.8; VFloat 0.9]) as Hv
    by (vm_compute; reflexivity).
  assert (compute_median (U := Unsorted.keep)
            [VFloat 0.5; VFloat 0.8; VFloat 0.9] = Ok (VFloat 0.8)) as Hm
    by (vm_compute; reflexivity).
  refine (conj (conj _ _) (conj (conj _ _) (conj (conj _ _) (conj _ _)))).
  - exact (proj1 (proj1 (inclusive_comparison (H := SimpleRe.engine)
      (U := Unsorted.keep) "latency" (VFloat 1.0) 99 None None
      Examples.latencies _ (NFloat 1.0) Hv eq_refl)
      (VFloat 0.8) (NFloat 0.8) Hm eq_refl)).
  - exact (proj2 (proj1 (inclusive_comparison (H := SimpleRe.engine)
      (U := Unsorted.keep) "latency" (VFloat 1.0) 99 None None
      Examples.latencies _ (NFloat 1.0) Hv eq_refl)
      (VFloat 0.8) (NFloat 0.8) Hm eq_refl)).
  - exact (proj1 (proj1 (inclusive_comparison (H := SimpleRe.engine)
      (U := Unsorted.keep) "latency" (VFloat 0.5) 99 None None
      Examples.latencies _ (NFloat 0.5) Hv eq_refl)
      (VFloat 0.8) (NFloat 0.8) Hm eq_refl)).
  - exact (proj2 (proj1 (inclusive_comparison (H := SimpleRe.engine)
      (U := Unsorted.keep) "latency" (VFloat 0.5) 99 None None
      Examples.latencies _ (NFloat 0.5) Hv eq_refl)
      (VFloat 0.8) (NFloat 0.8) Hm eq_refl)).
  - exact (proj1 (proj1 (inclusive_comparison (H := SimpleRe.engine)
      (U := Unsorted.keep) "latency" (VFloat 0.8) 99 None None
      Examples.latencies _ (NFloat 0.8) Hv eq_refl)
      (VFloat 0.8) (NFloat 0.8) Hm eq_refl)).
  - exact (proj2 (proj1 (inclusive_comparison (H := SimpleRe.engine)
      (U := Unsorted.keep) "latency" (VFloat 0.8) 99 None None
      Examples.latencies _ (NFloat 0.8) Hv eq_refl)
      (VFloat 0.8) (NFloat 0.8) Hm eq_refl)).
  - exact (proj1 (proj1 (inclusive_comparison (H := SimpleRe.engine)
      (U := Unsorted.keep) "latency" (VInt 0) 99 None None
      Examples.latencies _ (NInt 0) Hv eq_refl)
      (VFloat 0.8) (NFloat 0.8) Hm eq_refl)).
  - exact (proj2 (proj1 (inclusive_comparison (H := SimpleRe.engine)
      (U := Unsorted.keep) "latency" (VInt 0) 99 None None
      Examples.latencies _ (NInt 0) Hv eq_refl)
      (VFloat 0.8) (NFloat 0.8) Hm eq_refl)).
Defined.


(** The 99th percentile of the three test rows is a cut point [q], and
    the two operations compare it with the threshold 1.0. *)
Lemma percentile_selects_cut_point_witness :
  exists q,
    percentile_should_be_below (H := SimpleRe.engine)
        (U := Unsorted.keep) "latency" (VFloat 1.0)
      99 None None Examples.latencies = Ok (Num.leb (NFloat q) (NFloat 1.0)) /\
    percentile_should_be_above (H := SimpleRe.engine)
        (U := Unsorted.keep) "latency" (VFloat 1.0)
      99 None None Examples.latencies = Ok (Num.geb (NFloat q) (NFloat 1.0)).
Proof.
  destruct (percentile_selects_cut_point (H := SimpleRe.engine)
      (U := Unsorted.keep) "latency"
              (VFloat 1.0) 99 None None Examples.latencies
              [VFloat 0.5; VFloat 0.8; VFloat 0.9] (NFloat 1.0)
              ltac:(vm_compute; reflexivity) eq_refl)
    as (Hcuts & Htotal & _).
  destruct (Htotal ltac:(simpl; lia) eq_refl) as [cuts Hq].
  destruct (Hcuts cuts Hq) as (_ & Hp & _).
  destruct (Hp ltac:(lia)) as (q & _ & Hb & Ha).
  exists q. split; [exact Hb | exact Ha].
Defined.

(** With percentile 100 there is no cut point to select: on the three
    test rows the 99 cut points exist, and the operations raise
    [IndexError], which is not turned into [ActivityFailed]. *)
Lemma percentile_100_raises :
  (exists cuts, quantiles
      (U := Unsorted.keep) [VFloat 0.5; VFloat 0.8; VFloat 0.9] 100 = Ok cuts
                /\ length cuts = 99%nat) /\
  percentile_should_be_below (H := SimpleRe.engine)
      (U := Unsorted.keep) "latency" (VFloat 1.0) 100
    None None Examples.latencies = Raise IndexError /\
  percentile_should_be_above (H := SimpleRe.engine)
      (U := Unsorted.keep) "latency" (VFloat 1.0) 100
    None None Examples.latencies = Raise IndexError.
Proof.
  split; [|split; vm_compute; reflexivity].
  destruct (quantiles_float_total
      (U := Unsorted.keep) [VFloat 0.5; VFloat 0.8; VFloat 0.9])
    as (cuts & Hq & Hlen & _); [simpl; lia|done|].
  by exists cuts.
Qed.

(** A pod name that is a string is matched as it is. *)
Lemma filter_matches_strings_only_witness :
  target_excludes (H := SimpleRe.engine) (Some "pod")
    (Some Examples.consumer)
    (<["latency" := VFloat 0.9]> {[ "pod" := VStr "/producer/3" ]})
  = Ok (negb (re_match (Re := SimpleRe.engine) Examples.consumer
                "/producer/3")).
Proof.
  destruct (filter_matches_strings_only (H := SimpleRe.engine)
              "pod" "/consumer.*" Examples.consumer "latency" None
              (<["latency" := VFloat 0.9]> {[ "pod" := VStr "/producer/3" ]})
              [] (VStr "/producer/3") ltac:(vm_compute; reflexivity)
              eq_refl ltac:(vm_compute; reflexivity)) as [Hex _].
  exact Hex.
Defined.

(** A pod that is the number 1 is not matched as the text "1": the
    extraction raises [TypeError]. *)
Lemma numeric_value_is_not_stringified :
  Examples.numeric_pod !! "pod" = Some (VInt 1) /\
  (c ← re_compile (Re := SimpleRe.engine) "1"; Ok (re_match c "1"))
    = Ok true /\
  group_values (H := SimpleRe.engine) [Examples.numeric_pod] "latency"
    (Some ("pod", "1")) None = Raise TypeError.
Proof. repeat split; vm_compute; reflexivity. Qed.


(** * Further properties *)

(** ** Extraction *)

Section ExtractionFacts.
Context `{Re} {U : Unordered}.

Implicit Types (r : record) (results rest : list record).
Implicit Types (values : list value) (column : string).

(** Without a filter and without a conversion the extraction cannot fail:
    it is the list of the values found at the column, in the order of the
    records; records without the column are passed over. *)
Theorem group_values_plain column results :
  group_values results column None None
  = Ok (omap (fun r => r !! column) results).
Proof.
  rewrite group_values_no_target.
  induction results as [|r rest IH]; [done|].
  rewrite group_loop_cons. simpl. destruct (r !! column) as [v|]; [|done].
  simpl. by rewrite IH.
Qed.

Lemma group_loop_app key rgx column conv results1 results2 :
  group_loop key rgx column conv (results1 ++ results2) [] =
  (vs1 ← group_loop key rgx column conv results1 [];
   vs2 ← group_loop key rgx column conv results2 [];
   Ok (vs1 ++ vs2)).
Proof.
  induction results1 as [|r rest IH].
  - simpl. by destruct (group_loop key rgx column conv results2 []).
  - rewrite <- app_comm_cons, !group_loop_cons.
    destruct (target_excludes key rgx r) as [[|]|e]; simpl; [done| |done].
    destruct (r !! column) as [v|]; [|done].
    destruct (convert conv v) as [v'|e]; simpl; [|done]. rewrite IH.
    destruct (group_loop key rgx column conv rest []) as [vs1|e]; simpl;
      [|done].
    by destruct (group_loop key rgx column conv results2 []).
Qed.

(** Extraction from two record sets put end to end is the extraction from
    the first followed by the extraction from the second; it fails as soon
    as one of them does. *)
Theorem group_values_app column target conv results1 results2 :
  group_values (results1 ++ results2) column target conv =
  (vs1 ← group_values results1 column target conv;
   vs2 ← group_values results2 column target conv;
   Ok (vs1 ++ vs2)).
Proof.
  unfold group_values.
  destruct (match target with
            | Some (k, p) => c ← re_compile p; Ok (Some k, Some c)
            | None => Ok (None, None)
            end) as [[key rgx]|e]; simpl; [|done].
  apply group_loop_app.
Qed.

(** A filter pattern that does not compile makes the four operations
    raise the error of [re.compile], whatever the record set, the empty
    one included: the error is not turned into [ActivityFailed]. *)
Theorem malformed_pattern_raises column treshold percentile k p conv e
    (value : list record) :
  re_compile p = Raise e ->
  group_values value column (Some (k, p)) conv = Raise e /\
  median_should_be_below column treshold conv (Some (k, p)) value
    = Raise e /\
  median_should_be_above column treshold (Some (k, p)) conv value
    = Raise e /\
  percentile_should_be_below column treshold percentile (Some (k, p)) conv
    value = Raise e /\
  percentile_should_be_above column treshold percentile (Some (k, p)) conv
    value = Raise e.
Proof.
  intros Hp.
  assert (group_values value column (Some (k, p)) conv = Raise e) as Hg
    by (unfold group_values; by rewrite Hp).
  unfold median_should_be_below, median_should_be_above,
    percentile_should_be_below, percentile_should_be_above.
  by rewrite Hg.
Qed.

(** A value of the column that is not a number (a string, [None]) makes
    the extraction raise [TypeError] when a conversion is asked for; it
    is extracted as it is when none is. *)
Theorem conversion_needs_number key rgx column r rest values v :
  target_excludes key rgx r = Ok false -> r !! column = Some v ->
  as_num v = None ->
  group_loop key rgx column (Some "seconds") (r :: rest) values
    = Raise TypeError /\
  group_loop key rgx column (Some "milliseconds") (r :: rest) values
    = Raise TypeError /\
  group_loop key rgx column (Some "microseconds") (r :: rest) values
    = Raise TypeError /\
  group_loop key rgx column None (r :: rest) values
    = group_loop key rgx column None rest (values ++ [v]).
Proof.
  intros Hex Hv Hn. simpl. rewrite Hex, Hv. simpl.
  unfold py_truediv. by rewrite Hn.
Qed.

End ExtractionFacts.

Section UnitFacts.
Context `{Re} {U : Unordered}.

Lemma convert_other_unit u v :
  u <> "seconds" -> u <> "milliseconds" -> u <> "microseconds" ->
  convert (Some u) v = Ok v.
Proof.
  intros H1 H2 H3. unfold convert.
  repeat (destruct u as [|[[|] [|] [|] [|] [|] [|] [|] [|]] u];
          try reflexivity; try congruence).
Qed.

(** A unit other than the three known ones is ignored: the values are
    extracted unconverted, as without a unit. *)
Theorem unknown_unit_is_ignored u column target (results : list record) :
  u <> "seconds" -> u <> "milliseconds" -> u <> "microseconds" ->
  group_values results column target (Some u)
  = group_values results column target None.
Proof.
  intros H1 H2 H3. unfold group_values.
  destruct (match target with
            | Some (k, p) => c ← re_compile p; Ok (Some k, Some c)
            | None => Ok (None, None)
            end) as [[key rgx]|e]; simpl; [|done].
  generalize (@nil value). induction results as [|r rest IH]; intros acc;
    cbn -[convert]; [done|].
  destruct (target_excludes key rgx r) as [[|]|e]; cbn -[convert];
    [apply IH| |done].
  destruct (r !! column) as [v|]; [|apply IH].
  rewrite convert_other_unit by done. simpl. apply IH.
Qed.

End UnitFacts.

Lemma unknown_unit_is_ignored_witness :
  group_values (H := SimpleRe.engine) [Examples.five_seconds] "latency" None
    (Some "minutes") = Ok [VFloat 5.0e9].
Proof.
  rewrite (unknown_unit_is_ignored (H := SimpleRe.engine) "minutes" "latency"
             None [Examples.five_seconds]
             ltac:(discriminate) ltac:(discriminate) ltac:(discriminate)).
  vm_compute. reflexivity.
Defined.

(** ** Percentiles out of 1..99 *)

(** A negative index counts from the end of the list. *)
Lemma py_getitem_negative {A} (l : list A) (i : Z) :
  - Z.of_nat (length l) <= i < 0 ->
  py_getitem l i = py_getitem l (i + Z.of_nat (length l)).
Proof.
  intros Hi. unfold py_getitem. cbv zeta.
  assert ((i <? 0) = true) as -> by (apply Z.ltb_lt; lia).
  assert ((i + Z.of_nat (length l) <? 0) = false) as Hge
    by (apply Z.ltb_ge; lia).
  by rewrite !Hge.
Qed.

Lemma py_getitem_below_range {A} (l : list A) (i : Z) :
  i < - Z.of_nat (length l) -> py_getitem l i = Raise IndexError.
Proof.
  intros Hi. unfold py_getitem. cbv zeta.
  assert ((i <? 0) = true) as -> by (apply Z.ltb_lt; lia).
  assert ((i + Z.of_nat (length l) <? 0) = true) as Hlt
    by (apply Z.ltb_lt; lia).
  by rewrite !Hlt.
Qed.

Section PercentileFacts.
Context `{Re} {U : Unordered}.

Lemma compute_percentile_wraps values p :
  -98 <= p <= 0 ->
  compute_percentile values p = compute_percentile values (p + 99).
Proof.
  intros Hp. unfold compute_percentile.
  destruct (quantiles values 100) as [cuts|e] eqn:Hq; simpl; [|done].
  pose proof (quantiles_100_length _ _ Hq) as Hlen.
  rewrite py_getitem_negative by lia. rewrite Hlen.
  by replace (p - 1 + Z.of_nat 99) with (p + 99 - 1) by lia.
Qed.

(** A percentile from -98 to 0 is not refused: the index [p - 1] counts
    from the end of the 99 cut points, and the operations answer as for
    the percentile [p + 99]; percentile 0 is percentile 99. *)
Theorem percentile_wraps_around column treshold p target conv
    (value : list record) :
  -98 <= p <= 0 ->
  percentile_should_be_below column treshold p target conv value
  = percentile_should_be_below column treshold (p + 99) target conv value /\
  percentile_should_be_above column treshold p target conv value
  = percentile_should_be_above column treshold (p + 99) target conv value.
Proof.
  intros Hp. unfold percentile_should_be_below, percentile_should_be_above.
  destruct (group_values value column target conv) as [values|e]; simpl;
    [|done].
  by rewrite (compute_percentile_wraps values p Hp).
Qed.

(** Whenever two or more values are extracted and their cut points are
    defined, a percentile of 100 or more, or of -99 or less, makes both
    operations raise [IndexError]. *)
Theorem percentile_out_of_range column treshold p target conv
    (value : list record) values cuts :
  group_values value column target conv = Ok values ->
  quantiles values 100 = Ok cuts ->
  100 <= p \/ p <= -99 ->
  percentile_should_be_below column treshold p target conv value
    = Raise IndexError /\
  percentile_should_be_above column treshold p target conv value
    = Raise IndexError.
Proof.
  intros Hv Hq Hp. unfold percentile_should_be_below,
    percentile_should_be_above, compute_percentile.
  rewrite Hv. simpl. rewrite Hq. simpl.
  pose proof (quantiles_100_length _ _ Hq) as Hlen.
  destruct Hp as [Hp|Hp].
  - by rewrite py_getitem_out_of_range by lia.
  - by rewrite py_getitem_below_range by lia.
Qed.

(** With an odd number of numeric values the median is one of them: no
    arithmetic is done on the values. *)
Theorem odd_median_is_a_value values (k : nat) :
  length values = (2 * k + 1)%nat -> forallb is_number values = true ->
  exists m, compute_median values = Ok m /\ m ∈ values.
Proof.
  intros Hlen Hnum. apply forallb_Forall in Hnum.
  destruct (sorted_number values Hnum) as (s & Hs & Hperm).
  assert (length s = (2 * k + 1)%nat) as Hls by (by rewrite Hperm).
  destruct (lookup_lt_is_Some_2 s k) as [m Hm]; [lia|].
  exists m. split.
  - apply compute_median_Ok. by eapply median_odd.
  - rewrite <- Hperm. by eapply list_elem_of_lookup_2.
Qed.

End PercentileFacts.

Lemma percentile_wraps_around_witness :
  percentile_should_be_below (H := SimpleRe.engine)
      (U := Unsorted.keep) "latency" (VFloat 1.0) 0
    None None Examples.latencies
  = percentile_should_be_below (H := SimpleRe.engine)
      (U := Unsorted.keep) "latency" (VFloat 1.0)
      99 None None Examples.latencies.
Proof.
  destruct (percentile_wraps_around (H := SimpleRe.engine)
      (U := Unsorted.keep) "latency"
              (VFloat 1.0) 0 None None Examples.latencies ltac:(lia))
    as [Hb _].
  exact Hb.
Defined.

Lemma percentile_out_of_range_witness :
  exists cuts,
    quantiles
        (U := Unsorted.keep) [VFloat 0.5; VFloat 0.8; VFloat 0.9] 100 = Ok cuts /\
    percentile_should_be_below (H := SimpleRe.engine)
        (U := Unsorted.keep) "latency" (VFloat 1.0)
      (-99) None None Examples.latencies = Raise IndexError.
Proof.
  destruct (quantiles_float_total
      (U := Unsorted.keep) [VFloat 0.5; VFloat 0.8; VFloat 0.9])
    as (cuts & Hq & _); [simpl; lia|done|].
  exists cuts. split; [exact Hq|].
  destruct (percentile_out_of_range (H := SimpleRe.engine)
      (U := Unsorted.keep) "latency"
              (VFloat 1.0) (-99) None None Examples.latencies
              [VFloat 0.5; VFloat 0.8; VFloat 0.9] cuts
              ltac:(vm_compute; reflexivity) Hq ltac:(lia)) as [Hb _].
  exact Hb.
Defined.

Lemma odd_median_is_a_value_witness :
  exists m, compute_median
      (U := Unsorted.keep) [VFloat 0.9; VInt 1; VFloat 0.5] = Ok m /\
            m ∈ [VFloat 0.9; VInt 1; VFloat 0.5].
Proof.
  exact (odd_median_is_a_value
      (U := Unsorted.keep) [VFloat 0.9; VInt 1; VFloat 0.5] 1
           eq_refl eq_refl).
Defined.

(** ** Timestamps, again *)

(** The row after [handle_timestamp] is the row before it, with or
    without a new value at [_dt]. *)
Lemma handle_timestamp_shape r r' :
  handle_timestamp r = Ok r' ->
  r' = r \/ exists d, r' = <["_dt" := VStr (isoformat d)]> r.
Proof.
  unfold handle_timestamp.
  destruct (r !! "time_") as [t|]; [|destruct (r !! "create_time") as [t|];
    [|destruct (r !! "start_time") as [t|]]];
    try (destruct (nanotime_to_datetime t) as [d|]; simpl; [|done];
         intros [= <-]; right; by exists d).
  intros [= <-]. by left.
Qed.

Lemma handle_timestamp_other_keys r r' k :
  handle_timestamp r = Ok r' -> k <> "_dt" -> r' !! k = r !! k.
Proof.
  intros [->|[d ->]]%handle_timestamp_shape Hk; [done|].
  by rewrite lookup_insert_ne.
Qed.

(** Running the pass a second time changes nothing. *)
Theorem handle_timestamp_idempotent r r' :
  handle_timestamp r = Ok r' -> handle_timestamp r' = Ok r'.
Proof.
  intros Hr.
  assert (forall k, k <> "_dt" -> r' !! k = r !! k) as Hk
    by (intros k; by apply handle_timestamp_other_keys).
  revert Hr. unfold handle_timestamp.
  rewrite (Hk "time_"), (Hk "create_time"), (Hk "start_time") by done.
  destruct (r !! "time_") as [t|]; [|destruct (r !! "create_time") as [t|];
    [|destruct (r !! "start_time") as [t|]]];
    try (destruct (nanotime_to_datetime t) as [d|]; simpl; [|done];
         intros [= <-]; by rewrite insert_insert_eq).
  done.
Qed.

(** The first of the three columns that the row has is the one used, also
    when its value is not a number: the pass then raises [TypeError] and
    does not fall back on the next column. *)
Theorem handle_timestamp_no_fallback r v :
  r !! "time_" = Some v -> as_num v = None ->
  handle_timestamp r = Raise TypeError.
Proof.
  intros Hv Hn. unfold handle_timestamp, nanotime_to_datetime, py_truediv.
  by rewrite Hv, Hn.
Qed.

Lemma handle_timestamp_idempotent_witness :
  handle_timestamp
    (<["_dt" := VStr "1970-01-01T00:00:00.000002+00:00"]>
       {[ "time_" := VInt 1600 ]})
  = Ok (<["_dt" := VStr "1970-01-01T00:00:00.000002+00:00"]>
          {[ "time_" := VInt 1600 ]}).
Proof.
  apply (handle_timestamp_idempotent {[ "time_" := VInt 1600 ]}).
  vm_compute. reflexivity.
Defined.

(** A null [time_] hides a usable [start_time]. *)
Lemma handle_timestamp_no_fallback_witness :
  handle_timestamp (<["start_time" := VInt 1600]> {[ "time_" := VNone ]})
  = Raise TypeError.
Proof.
  apply (handle_timestamp_no_fallback _ VNone);
    [vm_compute; reflexivity | reflexivity].
Defined.

Section NormalisedRows.
Context `{Re} {U : Unordered}.

Lemma target_excludes_ext key rgx (r r' : record) :
  (forall k, key = Some k -> r' !! k = r !! k) ->
  target_excludes key rgx r' = target_excludes key rgx r.
Proof.
  intros Hk. unfold target_excludes. destruct key as [k|]; [|done].
  by rewrite (Hk k).
Qed.

(** The pass over the rows does not change what the tolerances extract,
    as long as neither the column nor the filter key is [_dt]. *)
Theorem normalisation_preserves_extraction (rs rs' : list record) column
    target conv :
  Forall2 (fun r r' => handle_timestamp r = Ok r') rs rs' ->
  column <> "_dt" ->
  (forall k p, target = Some (k, p) -> k <> "_dt") ->
  group_values rs' column target conv = group_values rs column target conv.
Proof.
  intros Hrs Hcol Htarget. unfold group_values.
  assert (forall key rgx,
            (forall k, key = Some k -> k <> "_dt") ->
            forall acc, group_loop key rgx column conv rs' acc
                        = group_loop key rgx column conv rs acc) as Hloop.
  { intros key rgx Hkey. induction Hrs as [|r r' rs rs' Hr _ IH];
      intros acc; [done|].
    cbn -[convert]. rewrite (target_excludes_ext key rgx r r').
    - rewrite (handle_timestamp_other_keys r r' column Hr Hcol).
      destruct (target_excludes key rgx r) as [[|]|e]; cbn -[convert];
        [apply IH| |done].
      destruct (r !! column) as [v|]; [|apply IH].
      destruct (convert conv v) as [v'|e]; cbn -[convert]; [apply IH|done].
    - intros k Hk. apply (handle_timestamp_other_keys r r' k Hr).
      by apply Hkey. }
  destruct target as [[k p]|]; simpl.
  - destruct (re_compile p) as [c|e]; simpl; [|done].
    apply Hloop. intros k' [= <-]. by eapply Htarget.
  - by apply Hloop.
Qed.

End NormalisedRows.

Lemma normalisation_preserves_extraction_witness :
  group_values (H := SimpleRe.engine)
    [ <["_dt" := VStr "1970-01-01T00:00:00.000002+00:00"]>
        (<["latency" := VFloat 0.5]> {[ "time_" := VInt 1600 ]}) ]
    "latency" None None
  = group_values (H := SimpleRe.engine)
    [ <["latency" := VFloat 0.5]> {[ "time_" := VInt 1600 ]} ]
    "latency" None None.
Proof.
  apply (normalisation_preserves_extraction (H := SimpleRe.engine)
           [ <["latency" := VFloat 0.5]> {[ "time_" := VInt 1600 ]} ]).
  - constructor; [vm_compute; reflexivity | constructor].
  - discriminate.
  - discriminate.
Defined.

(** ** Rows, scripts and probes *)

Lemma serialize_loop_lookup row data :
  forall i names out,
    Forall2 (fun j n => get_col_name row j = Ok n)
      (seqZ i (Z.of_nat (length data))) names ->
    exists out',
      serialize_loop row i data out = Ok out' /\
      (forall n, n ∉ names -> out' !! n = out !! n) /\
      (forall (k : nat) n c,
         names !! k = Some n -> data !! k = Some c ->
         (forall j : nat, (k < j)%nat -> names !! j <> Some n) ->
         out' !! n = Some (encode c)).
Proof.
  induction data as [|c rest IH]; intros i names out Hnames.
  - exists out. split; [done|]. split; [done|]. intros k n c' _ Hc. done.
  - rewrite length_cons, Nat2Z.inj_succ, seqZ_cons in Hnames by lia.
    inversion Hnames as [|? n0 ? names' Hn0 Hrest]; subst.
    replace (Z.pred (Z.succ (Z.of_nat (length rest))))
      with (Z.of_nat (length rest)) in Hrest by lia.
    destruct (IH (Z.succ i) names' (<[n0 := encode c]> out) Hrest)
      as (out' & Hloop & Hother & Hcol).
    exists out'. simpl. rewrite Hn0. simpl.
    replace (i + 1) with (Z.succ i) by lia. split; [done|]. split.
    + intros n Hn. apply not_elem_of_cons in Hn as [Hne Hn].
      rewrite (Hother n Hn). by rewrite lookup_insert_ne.
    + intros [|k] n c' Hk Hc' Hlast; simpl in *.
      * injection Hk as <-. injection Hc' as <-.
        rewrite Hother, lookup_insert_eq; [done|].
        intros (j & Hj)%list_elem_of_lookup_1.
        by apply (Hlast (S j)); [lia|].
      * apply (Hcol k n c' Hk Hc'). intros j Hj.
        apply (Hlast (S j)). lia.
Qed.

(** When every index of the row has a column name, [serialize_row]
    returns a dictionary whose keys are these names; the value of a name
    is the encoded value of the last column that bears it, so with
    distinct names every column is there. *)
Theorem serialize_row_columns row names :
  Forall2 (fun j n => get_col_name row j = Ok n)
    (seqZ 0 (Z.of_nat (length (_data row)))) names ->
  exists out,
    serialize_row row = Ok out /\
    (forall n, out !! n <> None <-> n ∈ names) /\
    (forall (k : nat) n c,
       names !! k = Some n -> _data row !! k = Some c ->
       (forall j : nat, (k < j)%nat -> names !! j <> Some n) ->
       out !! n = Some (encode c)) /\
    (NoDup names ->
     forall (k : nat) n c,
       names !! k = Some n -> _data row !! k = Some c ->
       out !! n = Some (encode c)).
Proof.
  intros Hnames.
  destruct (serialize_loop_lookup row (_data row) 0 names ∅ Hnames)
    as (out & Hloop & Hother & Hcol).
  assert (length names = length (_data row)) as Hlen.
  { apply Forall2_length in Hnames. rewrite length_seqZ in Hnames. lia. }
  exists out. split; [done|]. split; [|split].
  - intros n. split.
    + intros Hn. destruct (decide (n ∈ names)) as [|Hnot]; [done|].
      rewrite (Hother n Hnot), lookup_empty in Hn. done.
    + intros Hn.
      assert (exists k : nat, names !! k = Some n /\
                forall j : nat, (k < j)%nat -> names !! j <> Some n)
        as (k & Hk & Hlast).
      { clear -Hn. induction names as [|m names IH]; [by inversion Hn|].
        destruct (decide (n ∈ names)) as [Hin|Hnot].
        - destruct (IH Hin) as (k & Hk & Hlast). exists (S k).
          split; [done|]. intros [|j] Hj; [lia|]. apply Hlast. lia.
        - exists 0%nat. apply elem_of_cons in Hn as [->|]; [|done].
          split; [done|]. intros [|j] Hj; [lia|]. simpl.
          intros Hj'%list_elem_of_lookup_2. done. }
      destruct (lookup_lt_is_Some_2 (_data row) k) as [c Hc].
      { rewrite <- Hlen. by eapply lookup_lt_Some. }
      by rewrite (Hcol k n c Hk Hc Hlast).
  - exact Hcol.
  - intros Hnodup k n c Hk Hc. apply (Hcol k n c Hk Hc).
    intros j Hj Hj'. pose proof (NoDup_lookup _ _ _ _ Hnodup Hk Hj'). lia.
Qed.

(** The row of [test_serialize_row]. *)
Lemma serialize_row_columns_witness :
  exists out,
    serialize_row {| _data := [PValue (VInt 1); PValue (VInt 2);
                               PValue (VStr "three")];
                     get_col_name := py_getitem ["cola"; "colb"; "colc"] |}
      = Ok out /\
    out !! "colc" = Some (VStr "three").
Proof.
  destruct (serialize_row_columns
              {| _data := [PValue (VInt 1); PValue (VInt 2);
                           PValue (VStr "three")];
                 get_col_name := py_getitem ["cola"; "colb"; "colc"] |}
              ["cola"; "colb"; "colc"]
              ltac:(repeat constructor)) as (out & Hout & _ & Hcol & _).
  exists out. split; [exact Hout|].
  apply (Hcol 2%nat "colc" (PValue (VStr "three")) eq_refl eq_refl).
  intros [|[|[|j]]] Hj; try lia. discriminate.
Defined.

Lemma execute_loop_Ok rows stream_end r out :
  execute_loop rows stream_end r = Ok out <->
  stream_end = None /\
  exists out',
    out = r ++ out' /\
    Forall2 (fun row o => exists o0, serialize_row row = Ok o0 /\
                                     handle_timestamp o0 = Ok o) rows out'.
Proof.
  revert r. induction rows as [|row rows IH]; intros r; simpl.
  - destruct stream_end as [e|]; split.
    + done.
    + by intros [? _].
    + intros [= <-]. split; [done|]. exists []. by rewrite app_nil_r.
    + intros (_ & out' & -> & Hout). inversion Hout. by rewrite app_nil_r.
  - destruct (serialize_row row) as [o0|e] eqn:Hs; simpl.
    + destruct (handle_timestamp o0) as [o|e] eqn:Hh; simpl.
      * rewrite IH. split.
        -- intros (-> & out' & -> & Hout). split; [done|].
           exists (o :: out'). rewrite <- app_assoc. split; [done|].
           constructor; [by exists o0|done].
        -- intros (-> & out' & -> & Hout). split; [done|].
           inversion Hout as [|? o' ? out'' (o0' & Ho0 & Ho) Hrest]; subst.
           assert (o0' = o0) as -> by congruence.
           assert (o' = o) as -> by congruence.
           exists out''. by rewrite <- app_assoc.
      * split; [done|]. intros (_ & out' & _ & Hout).
        inversion Hout as [|? o' ? out'' (o0' & Ho0 & Ho) Hrest]; subst.
        congruence.
    + split; [done|]. intros (_ & out' & _ & Hout).
      inversion Hout as [|? o' ? out'' (o0' & Ho0 & Ho) Hrest]; subst.
      congruence.
Qed.

(** [execute_script] returns exactly when the script is accepted, the
    stream of rows ends normally and every row serializes and gets its
    timestamp; the result then holds one record for each row, in the
    order of the stream. *)
Theorem execute_script_rows conn script table_name out :
  execute_script conn script table_name = Ok out <->
  exists s rows,
    prepare_script conn script = Ok s /\
    results s table_name = (rows, None) /\
    Forall2 (fun row o => exists o0, serialize_row row = Ok o0 /\
                                     handle_timestamp o0 = Ok o) rows out.
Proof.
  unfold execute_script. destruct (prepare_script conn script) as [s|e];
    simpl.
  - destruct (results s table_name) as [rows stream_end] eqn:Hres.
    rewrite execute_loop_Ok. split.
    + intros (-> & out' & -> & Hout). by exists s, rows.
    + intros (s' & rows' & [= <-] & Hres' & Hout).
      rewrite Hres in Hres'. injection Hres' as <- <-. split; [done|].
      by exists out.
  - split; [done|]. by intros (s & rows & ? & _).
Qed.

(** The stream ending with an exception makes [execute_script] raise it,
    once the rows before it have gone through. *)
Theorem execute_script_stream_error conn script table_name s rows rs e :
  prepare_script conn script = Ok s ->
  results s table_name = (rows, Some e) ->
  Forall2 (fun row o => exists o0, serialize_row row = Ok o0 /\
                                   handle_timestamp o0 = Ok o) rows rs ->
  execute_script conn script table_name = Raise e.
Proof.
  intros Hs Hres Hrows. unfold execute_script. rewrite Hs. simpl.
  rewrite Hres. clear Hres. generalize (@nil record).
  induction Hrows as [|row o rows rs (o0 & Ho0 & Ho) _ IH]; intros r;
    simpl; [done|].
  rewrite Ho0. simpl. rewrite Ho. simpl. apply IH.
Qed.

(** The stream yields a row, which is serialized and gets its [_dt], and
    then fails: the call raises and the row is lost. *)
Lemma execute_script_stream_error_witness :
  execute_script {| prepare_script := fun _ => Ok Examples.failing_script |}
    "px.display(df)" "output"
  = Raise ValueError.
Proof.
  apply (execute_script_stream_error _ _ _ Examples.failing_script
           [Examples.timed_row]
           [ <["_dt" := VStr "1970-01-01T00:00:00.000002+00:00"]>
               (<["cola" := VInt 1]> {[ "time_" := VInt 1600 ]}) ]);
    [reflexivity | reflexivity |].
  constructor; [|constructor].
  exists (<["cola" := VInt 1]> {[ "time_" := VInt 1600 ]}).
  split; vm_compute; reflexivity.
Defined.

(** [run_script_from_local_file] reads the script before it resolves the
    credentials, and resolves the credentials before it builds a client:
    a path that does not exist is reported as [ActivityFailed] whatever
    the credentials and the server are, and a file that cannot be read by
    the error of the read; with a script in hand, credentials that do not
    resolve are reported by the error of [get_auth] whatever the server
    is. *)
Theorem probe_error_precedence url environ files Client script_path
    table_name configuration secrets :
  (files script_path = None ->
   run_script_from_local_file url environ files Client script_path
     table_name configuration secrets
   = Raise (ActivityFailed
              (String.append "'"
                 (String.append script_path " is not a valid path")))) /\
  (forall e, files script_path = Some (Raise e) ->
   run_script_from_local_file url environ files Client script_path
     table_name configuration secrets = Raise e) /\
  (forall script e,
     files script_path = Some (Ok script) ->
     get_auth url environ configuration secrets = Raise e ->
     run_script_from_local_file url environ files Client script_path
       table_name configuration secrets = Raise e /\
     run_script url environ Client script table_name configuration secrets
       = Raise e).
Proof.
  unfold run_script_from_local_file, load_script_from_file, run_script,
    connect.
  split; [|split].
  - by intros ->.
  - by intros e ->.
  - intros script e -> ->. by split.
Qed.

(** [discover] cannot return a discovery: when chaoslib's two functions
    return, [load_exported_activities] has no value to return and
    extending the list of activities by [None] raises [TypeError];
    otherwise the exception of chaoslib comes out. *)
Theorem discover_never_returns (activity : Type)
    (initialize_discovery_result :
       string -> string -> string -> result (Discovery activity))
    (discover_probes : string -> result (list activity))
    (discover_system : bool) :
  (forall d, discover activity initialize_discovery_result discover_probes
               discover_system <> Ok d) /\
  (forall d found,
     initialize_discovery_result "chaostoolkit-pixie" "0.1.0" "pixie" = Ok d ->
     discover_probes "chaospixie.probes" = Ok found ->
     discover activity initialize_discovery_result discover_probes
       discover_system = Raise TypeError).
Proof.
  unfold discover, load_exported_activities, __version__. split.
  - intros d.
    destruct (initialize_discovery_result _ _ _) as [d0|e]; simpl; [|done].
    by destruct (discover_probes _) as [found|e].
  - by intros d found -> ->.
Qed.


(** ** The store, by example *)

(** One record, held at location 2, in the list at location 1. *)
Lemma store_refines_witness :
  (Store.median_should_be_below (H := SimpleRe.engine)
      (U := Unsorted.keep) "latency"
     (VFloat 1.0) None None 1%positive
     (<[1%positive := Store.OList [Store.IRef 2%positive]]>
        {[ 2%positive := Store.ODict {[ "latency" := VFloat 0.5 ]} ]})).1
  = median_should_be_below (H := SimpleRe.engine)
      (U := Unsorted.keep) "latency" (VFloat 1.0)
      None None [ {[ "latency" := VFloat 0.5 ]} ].
Proof.
  destruct (store_refines (H := SimpleRe.engine)
      (U := Unsorted.keep) "latency" (VFloat 1.0) 99
              None None 1%positive [ {[ "latency" := VFloat 0.5 ]} ]
              (<[1%positive := Store.OList [Store.IRef 2%positive]]>
                 {[ 2%positive :=
                      Store.ODict {[ "latency" := VFloat 0.5 ]} ]}))
    as [Hb _]; [|exact Hb].
  exists [2%positive]. split; [reflexivity|].
  constructor; [reflexivity|constructor].
Defined.

(** ** Calendar fields *)

Lemma civil_from_days_range z y m d :
  civil_from_days z = (y, m, d) -> 1 <= m <= 12 /\ 1 <= d <= 31.
Proof.
  unfold civil_from_days. cbv zeta.
  set (doe := z + 719468 - (z + 719468) / 146097 * 146097).
  assert (0 <= doe <= 146096) as Hdoe
    by (unfold doe; Z.div_mod_to_equations; lia).
  clearbody doe.
  set (yoe := (doe - doe / 1460 + doe / 36524 - doe / 146096) / 365).
  assert (0 <= yoe <= 399) as Hyoe
    by (unfold yoe; Z.div_mod_to_equations; lia).
  set (doy := doe - (365 * yoe + yoe / 4 - yoe / 100)).
  assert (0 <= doy <= 365) as Hdoy
    by (unfold doy, yoe; Z.div_mod_to_equations; lia).
  clearbody doy. clear Hyoe. clearbody yoe.
  intros [= <- <- <-].
  destruct (Z.ltb_spec ((5 * doy + 2) / 153) 10);
    Z.div_mod_to_equations; lia.
Qed.

Lemma string_length_append s1 s2 :
  String.length (String.append s1 s2)
  = (String.length s1 + String.length s2)%nat.
Proof. induction s1 as [|c s1 IH]; simpl; [done|]. by rewrite IH. Qed.

Lemma decimal_length width n : String.length (decimal width n) = width.
Proof.
  revert n. induction width as [|w IH]; intros n; simpl; [done|].
  rewrite string_length_append, IH. simpl. lia.
Qed.

(** The date and time that [nanotime_to_datetime] returns has its fields
    in range (a year from 1 to 9999, a month from 1 to 12, a day from 1
    to 31, and a time of day), and its ISO text has 25 characters when
    the microseconds are zero and 32 otherwise. *)
Theorem nanotime_to_datetime_fields nano d :
  nanotime_to_datetime nano = Ok d ->
  1 <= year d <= 9999 /\ 1 <= month d <= 12 /\ 1 <= day d <= 31 /\
  0 <= hour d < 24 /\ 0 <= minute d < 60 /\ 0 <= second d < 60 /\
  0 <= microsecond d < 1000000 /\
  String.length (isoformat d)
  = if microsecond d =? 0 then 25%nat else 32%nat.
Proof.
  unfold nanotime_to_datetime.
  destruct (py_truediv nano _) as [x|]; simpl; [|done].
  destruct (timedelta_microseconds x) as [us|]; simpl; [|done].
  unfold epoch_plus. cbv zeta.
  destruct (civil_from_days (us / us_per_day)) as [[y m] dd] eqn:Hc.
  destruct (civil_from_days_range _ _ _ _ Hc) as [Hm Hd].
  destruct (Z.ltb_spec y 1); simpl; [done|].
  destruct (Z.ltb_spec 9999 y); simpl; [done|].
  intros [= <-]. simpl.
  assert (0 <= us mod us_per_day < 86400000000) as Hrest
    by (apply Z.mod_pos_bound; reflexivity).
  set (rest := us mod us_per_day) in *. clearbody rest.
  repeat split; try lia; try (Z.div_mod_to_equations; lia).
  unfold isoformat. simpl.
  destruct (rest mod 1000000 =? 0); simpl;
    rewrite ?string_length_append, ?decimal_length; simpl;
    rewrite ?string_length_append, ?decimal_length; simpl; lia.
Qed.

(** 1.6 µs after the epoch. *)
Lemma nanotime_to_datetime_fields_witness :
  exists d, nanotime_to_datetime (VInt 1600) = Ok d /\
            String.length (isoformat d) = 32%nat.
Proof.
  exists {| year := 1970; month := 1; day := 1; hour := 0; minute := 0;
            second := 0; microsecond := 2 |}.
  split; [vm_compute; reflexivity|].
  destruct (nanotime_to_datetime_fields (VInt 1600)
              {| year := 1970; month := 1; day := 1; hour := 0; minute := 0;
                 second := 0; microsecond := 2 |}
              ltac:(vm_compute; reflexivity)) as (_ & _ & _ & _ & _ & _ & _ & Hlen).
  exact Hlen.
Defined.


(** ** More rows of example *)

(** A star with nothing to repeat does not compile. *)
Lemma malformed_pattern_raises_witness :
  median_should_be_below (H := SimpleRe.engine)
      (U := Unsorted.keep) "latency" (VFloat 1.0) None
    (Some ("pod", "*")) [] = Raise ReError.
Proof.
  destruct (malformed_pattern_raises (H := SimpleRe.engine)
      (U := Unsorted.keep) "latency"
              (VFloat 1.0) 99 "pod" "*" None ReError [] eq_refl)
    as (_ & Hb & _).
  exact Hb.
Defined.

(** A latency that is a text cannot be converted. *)
Lemma conversion_needs_number_witness :
  group_loop (H := SimpleRe.engine) None None "latency" (Some "seconds")
    [ {[ "latency" := VStr "5" ]} ] [] = Raise TypeError.
Proof.
  assert (({[ "latency" := VStr "5" ]} : record) !! "latency"
          = Some (VStr "5")) as Hl by (vm_compute; reflexivity).
  destruct (conversion_needs_number (H := SimpleRe.engine) None None
              "latency" _ [] [] (VStr "5") eq_refl Hl eq_refl) as [Hs _].
  exact Hs.
Defined.
